(** * Asterix (MinAtar, JAX port): a shallow embedding of
      [gymnax/environments/minatar/asterix.py] and the properties of its
      state-transition engine.

    Conventions of the embedding.
    - Integers of the source are [Z]. Every quantity of the game is a small
      number (coordinates, timers, slot indices); fixed-width overflow is
      outside every property stated here.
    - A boolean used as a number ([mask * value], [1 - mask]) is made
      explicit with [Z.b2z]; a number used as a boolean ([logical_and] on an
      integer) is the test "different from 0".
    - A row of the entity array is the record [entity]; its fields are the
      columns 0..4 of the row, in order.
    - The observation is a nested list of booleans of shape (10, 10, 5).
    - [jax.ops.index_update] follows JAX indexing: a negative index [i] on an
      axis of size [n] denotes [i + n]; an update whose index is still
      outside the axis is dropped.
    - The three random draws of one step ([jax.random.choice] twice and
      [jax.random.permutation]) are the fields of [rng].
    - [==] between a slice of a jnp array and a Python list is not an
      elementwise comparison: the array declines the list, and Python
      answers with the identity of the two objects, [False]. *)

From Equations.Prop Require Import Equations Logic.
From stdpp Require Import base list.
From Stdlib Require Import ZArith Lia Bool.

Local Open Scope Z_scope.

(** ** Parameters, entities and state *)

Record params := Params {
  ramping : Z;
  ramp_interval : Z;
  init_spawn_speed : Z;
  init_move_interval : Z;
  shot_cool_down : Z
}.

Definition params_asterix : params :=
  {| ramping := 1; ramp_interval := 100; init_spawn_speed := 10;
     init_move_interval := 5; shot_cool_down := 5 |}.

(** One row [x] of [state["entities"]]: [x[0]] column, [x[1]] row,
    [x[2]] direction bit, [x[3]] gold indicator, [x[4]] slot filled. *)
Record entity := Entity {
  e_x : Z;
  e_y : Z;
  e_lr : Z;
  e_gold : Z;
  e_filled : Z
}.

Record state := State {
  player_x : Z;
  player_y : Z;
  shot_timer : Z;
  spawn_speed : Z;
  spawn_timer : Z;
  move_speed : Z;
  move_timer : Z;
  ramp_timer : Z;
  ramp_index : Z;
  entities : list entity
}.

Record rng := Rng {
  draw_lr : Z;
  draw_gold : Z;
  draw_order : list Z
}.

Definition set_entities (s : state) (t : list entity) : state :=
  State (player_x s) (player_y s) (shot_timer s) (spawn_speed s)
        (spawn_timer s) (move_speed s) (move_timer s) (ramp_timer s)
        (ramp_index s) t.

Definition set_player (s : state) (px py : Z) : state :=
  State px py (shot_timer s) (spawn_speed s) (spawn_timer s) (move_speed s)
        (move_timer s) (ramp_timer s) (ramp_index s) (entities s).

Definition set_spawn_timer (s : state) (v : Z) : state :=
  State (player_x s) (player_y s) (shot_timer s) (spawn_speed s) v
        (move_speed s) (move_timer s) (ramp_timer s) (ramp_index s)
        (entities s).

Definition set_move_timer (s : state) (v : Z) : state :=
  State (player_x s) (player_y s) (shot_timer s) (spawn_speed s)
        (spawn_timer s) (move_speed s) v (ramp_timer s) (ramp_index s)
        (entities s).

Definition set_ramp_timer (s : state) (v : Z) : state :=
  State (player_x s) (player_y s) (shot_timer s) (spawn_speed s)
        (spawn_timer s) (move_speed s) (move_timer s) v (ramp_index s)
        (entities s).

Definition set_move_speed (s : state) (v : Z) : state :=
  State (player_x s) (player_y s) (shot_timer s) (spawn_speed s)
        (spawn_timer s) v (move_timer s) (ramp_timer s) (ramp_index s)
        (entities s).

Definition set_spawn_speed (s : state) (v : Z) : state :=
  State (player_x s) (player_y s) (shot_timer s) v (spawn_timer s)
        (move_speed s) (move_timer s) (ramp_timer s) (ramp_index s)
        (entities s).

Definition set_ramp_index (s : state) (v : Z) : state :=
  State (player_x s) (player_y s) (shot_timer s) (spawn_speed s)
        (spawn_timer s) (move_speed s) (move_timer s) (ramp_timer s) v
        (entities s).

(** ** Array arithmetic on rows and on the entity table *)

Definition zero_entity : entity := Entity 0 0 0 0 0.

(** [x * k] for a row [x] and a scalar [k]. *)
Definition scale (k : Z) (x : entity) : entity :=
  Entity (e_x x * k) (e_y x * k) (e_lr x * k) (e_gold x * k) (e_filled x * k).

Definition add_entity (x y : entity) : entity :=
  Entity (e_x x + e_x y) (e_y x + e_y y) (e_lr x + e_lr y)
         (e_gold x + e_gold y) (e_filled x + e_filled y).

(** [k * t] and [t + u] on whole tables. *)
Definition table_scale (k : Z) (t : list entity) : list entity :=
  scale k <$> t.

Definition table_add (t u : list entity) : list entity :=
  zip_with add_entity t u.

(** [t[i]] for a loop index [i] of [range(8)]. *)
Definition row (t : list entity) (i : nat) : entity :=
  default zero_entity (t !! i).

(** Index normalisation of JAX: negative indices count from the end; what is
    still outside the axis has no position. *)
Definition norm_index (size i : Z) : option nat :=
  let j := if i <? 0 then i + size else i in
  if (0 <=? j) && (j <? size) then Some (Z.to_nat j) else None.

(** [jax.ops.index_update(t, jax.ops.index[slot], x)] on the table. *)
Definition index_update_row (t : list entity) (slot : Z) (x : entity)
  : list entity :=
  match norm_index (Z.of_nat (length t)) slot with
  | Some n => <[n := x]> t
  | None => t
  end.

(** [l[i]] for a traced index: negative indices count from the end and the
    position is clamped into the axis. *)
Definition gather (l : list Z) (i : Z) : Z :=
  let n := Z.of_nat (length l) in
  let j := if i <? 0 then i + n else i in
  default 0 (l !! Z.to_nat (Z.max 0 (Z.min (n - 1) j))).

(** ** The observation array *)

Definition zeros3 (d0 d1 d2 : nat) : list (list (list bool)) :=
  replicate d0 (replicate d1 (replicate d2 false)).

Definition get3 (a : list (list (list bool))) (i j k : nat) : bool :=
  match a !! i with
  | Some plane =>
      match plane !! j with
      | Some cell => default false (cell !! k)
      | None => false
      end
  | None => false
  end.

Definition set3 (a : list (list (list bool))) (i j k : nat) (v : bool)
  : list (list (list bool)) :=
  alter (alter (<[k := v]>) j) i a.

(** [jax.ops.index_update(obs, jax.ops.index[i, j, k], v)] on an array of
    shape (10, 10, 5). *)
Definition index_update3 (a : list (list (list bool))) (i j k : Z) (v : bool)
  : list (list (list bool)) :=
  match norm_index 10 i, norm_index 10 j, norm_index 5 k with
  | Some i', Some j', Some k' => set3 a i' j' k' v
  | _, _, _ => a
  end.

(** One iteration of the loop of [get_obs] over the rows of the table. *)
Definition render_entity (obs : list (list (list bool))) (x : entity)
  : list (list (list bool)) :=
  let c := 3 * e_gold x + 1 * (1 - e_gold x) in
  let c_eff := c * e_filled x + 4 * (1 - e_filled x) in
  let obs := index_update3 obs (e_y x) (e_x x) c_eff true in
  let back_x := (e_x x - 1) * e_lr x + (e_x x + 1) * (1 - e_lr x) in
  let leave_trail := (0 <=? back_x) && (back_x <=? 9) in
  let c_eff := 2 * e_filled x + 4 * (1 - e_filled x) in
  index_update3 obs (e_y x) back_x c_eff leave_trail.

(** [obs[:, :, :4]]. *)
Definition visible (obs : list (list (list bool))) : list (list (list bool)) :=
  (fun plane : list (list bool) =>
     (fun cell : list bool => take 4 cell) <$> plane) <$> obs.

Definition get_obs (s : state) : list (list (list bool)) :=
  let obs := zeros3 10 10 5 in
  let obs := index_update3 obs (player_y s) (player_x s) 0 true in
  let obs := fold_left render_entity (entities s) obs in
  visible obs.

(** ** Spawning *)

Definition condition_to_check (val : Z * Z) : bool :=
  (val.1 <? 7) && (val.2 =? 0).

Definition update (state_entities : list Z) (val : Z * Z) : Z * Z :=
  let val := (val.1 + 1, val.2) in
  let free := gather state_entities val.1 =? 0 in
  (val.1, Z.b2z free).

(** [jax.lax.while_loop(condition_to_check, update, val)]: the counter
    [val[0]] grows at every turn and the loop stops at 7. *)
Equations? while_loop (state_entities : list Z) (val : Z * Z) : Z * Z
  by wf (Z.to_nat (7 - val.1)) lt :=
  while_loop state_entities val with inspect (condition_to_check val) := {
    | exist _ true Hc => while_loop state_entities (update state_entities val)
    | exist _ false Hc => val }.
Proof.
  unfold condition_to_check in Hc. simpl in *.
  apply andb_prop in Hc as [H1 _]. apply Z.ltb_lt in H1. lia.
Qed.

(** The permutation [order_to_go_through] is drawn and not used. *)
Definition while_sample_slots (r : rng) (state_entities : list Z) : Z * Z :=
  let init_val := (0, 0) in
  let order_to_go_through := draw_order r in
  while_loop state_entities init_val.

Definition spawn_entity (r : rng) (s : state) : entity * Z :=
  let lr := draw_lr r in
  let is_gold := draw_gold r in
  let x := (1 - lr) * 9 in
  let state_entities := e_filled <$> entities s in
  let '(slot, free) := while_sample_slots r state_entities in
  (Entity x (slot + 1) lr is_gold free, slot).

(** ** Collisions and movement *)

(** [a == l] for a slice [a] of a jnp array and a Python list [l]. The
    array's [__eq__] accepts arrays and scalars only: for a list it
    returns [NotImplemented], the list's reflected [__eq__] declines the
    array in turn, and Python falls back to comparing the identities of
    the two objects. The result is the constant [False], whatever the
    operands hold. *)
Definition array_eq_list (a l : list Z) : bool := false.

(** [x[0:2] == [state["player_x"], state["player_y"]]]. *)
Definition at_player (s : state) (x : entity) : bool :=
  array_eq_list [e_x x; e_y x] [player_x s; player_y s].

(** The loop state of [update_entities]: the state dictionary together
    with the locals [reward] and [done]. *)
Definition first_loop_body (acc : state * Z * bool) (i : nat)
  : state * Z * bool :=
  let '(s, reward, done) := acc in
  let x := row (entities s) i in
  let slot_filled := negb (e_filled x =? 0) in
  let collision := at_player s x && slot_filled in
  let collision_gold := collision && negb (e_gold x =? 0) in
  let reward := reward + Z.b2z collision_gold in
  let s := set_entities s
             (<[i := scale (1 - Z.b2z collision_gold) x]> (entities s)) in
  let collision_enemy := collision && negb (1 - e_gold x =? 0) in
  let done := collision_enemy in
  (s, reward, done).

Definition second_loop_body (acc : state * Z * bool) (i : nat)
  : state * Z * bool :=
  let '(s, reward, done) := acc in
  let x := row (entities s) i in
  let slot_filled := negb (e_filled x =? 0) in
  let lr := e_lr x in
  let x := Entity (Z.b2z slot_filled * (e_x x + 1 * lr - 1 * (1 - lr))
                   + (1 - Z.b2z slot_filled) * e_x x)
                  (e_y x) (e_lr x) (e_gold x) (e_filled x) in
  let outside_of_frame := (e_x x <? 0) || (e_x x >? 9) in
  let s := set_entities s
             (<[i := scale (1 - Z.b2z outside_of_frame)
                           (scale (Z.b2z slot_filled) x)]> (entities s)) in
  let collision := at_player s x && slot_filled in
  let collision_gold := collision && negb (e_gold x =? 0) in
  let reward := reward + Z.b2z collision_gold in
  let s := set_entities s
             (<[i := scale (1 - Z.b2z collision_gold) x]> (entities s)) in
  let collision_enemy := collision && negb (1 - e_gold x =? 0) in
  let done := collision_enemy in
  (s, reward, done).

Definition update_entities (s : state) : state * Z * bool :=
  let '(done, reward) := (false, 0) in
  let '(s, reward, done) :=
    fold_left first_loop_body (seq 0 8) (s, reward, done) in
  let time_to_move := move_timer s =? 0 in
  let s := set_move_timer s
             (Z.b2z time_to_move * move_speed s
              + (1 - Z.b2z time_to_move) * move_speed s) in
  fold_left second_loop_body (seq 0 8) (s, reward, done).

(** ** The step and reset functions *)

(** "Spawn enemy if timer is up - sample at each step and mask". *)
Definition spawn_phase (r : rng) (s : state) : state :=
  let '(entity, slot) := spawn_entity r s in
  let s := set_entities s
             (table_add
                (table_scale (Z.b2z (spawn_timer s =? 0))
                             (index_update_row (entities s) slot entity))
                (table_scale (Z.b2z (spawn_timer s >? 0)) (entities s))) in
  set_spawn_timer s
    (Z.b2z (spawn_timer s =? 0) * spawn_speed s
     + Z.b2z (spawn_timer s >? 0) * spawn_timer s).

(** "Resolve player action via implicit conditional updates". *)
Definition player_phase (s : state) (action : Z) : state :=
  let player_x' :=
    Z.max 0 (player_x s - 1) * Z.b2z (action =? 0)
    + Z.min 9 (player_x s + 1) * Z.b2z (action =? 2)
    + player_x s * Z.b2z (negb (action =? 0) && negb (action =? 2)) in
  let player_y' :=
    Z.max 1 (player_y s - 1) * Z.b2z (action =? 1)
    + Z.min 8 (player_y s + 1) * Z.b2z (action =? 3)
    + player_y s * Z.b2z (negb (action =? 1) && negb (action =? 3)) in
  set_player s player_x' player_y'.

(** "Update various timers". *)
Definition timer_phase (s : state) : state :=
  let s := set_spawn_timer s (spawn_timer s - 1) in
  set_move_timer s (move_timer s - 1).

(** "Ramp difficulty if interval has elapsed". *)
Definition ramp_phase (p : params) (s : state) : state :=
  let ramp_cond :=
    negb (ramping p =? 0)
    && ((spawn_speed s >? 1) || (move_speed s >? 1)) in
  let timer_cond := ramp_cond && (ramp_timer s >=? 0) in
  let s := set_ramp_timer s
             (Z.b2z timer_cond * (ramp_timer s - 1)
              + (1 - Z.b2z timer_cond) * ramp_interval p) in
  let move_speed_cond :=
    (ramp_cond && negb (1 - Z.b2z timer_cond =? 0))
    && (negb (move_speed s =? 0) && negb (ramp_index s mod 2 =? 0)) in
  let s := set_move_speed s (move_speed s - Z.b2z move_speed_cond) in
  let spawn_speed_cond :=
    (ramp_cond && negb (1 - Z.b2z timer_cond =? 0))
    && (spawn_speed s >? 1) in
  let s := set_spawn_speed s (spawn_speed s - Z.b2z spawn_speed_cond) in
  set_ramp_index s
    (ramp_index s + Z.b2z (ramp_cond && negb (1 - Z.b2z timer_cond =? 0))).

(** What [step] returns, without the empty info dictionary. *)
Record outcome := Outcome {
  out_obs : list (list (list bool));
  out_state : state;
  out_reward : Z;
  out_done : bool
}.

Definition step (r : rng) (p : params) (s : state) (action : Z) : outcome :=
  let s := spawn_phase r s in
  let s := player_phase s action in
  let '(s, reward, done) := update_entities s in
  let s := timer_phase s in
  let s := ramp_phase p s in
  Outcome (get_obs s) s reward done.

Definition initial_state (p : params) : state :=
  {| player_x := 5; player_y := 5; shot_timer := 0;
     spawn_speed := init_spawn_speed p; spawn_timer := init_spawn_speed p;
     move_speed := init_move_interval p; move_timer := init_move_interval p;
     ramp_timer := ramp_interval p; ramp_index := 0;
     entities := replicate 8 zero_entity |}.

Definition reset (r : rng) (p : params) : list (list (list bool)) * state :=
  let s := initial_state p in
  (get_obs s, s).

(** States the environment can be in: what [reset] returns and what [step]
    returns from such a state, for any draws and any action codes. *)
Inductive reachable (p : params) : state -> Prop :=
| reachable_reset (r : rng) : reachable p (reset r p).2
| reachable_step (r : rng) (s : state) (action : Z) :
    reachable p s -> reachable p (out_state (step r p s action)).

(** The cells of the observation that hold [true], as (row, column,
    channel) triples in row-major order. *)
Definition true_cells (obs : list (list (list bool))) : list (nat * nat * nat) :=
  flat_map (fun '(i, plane) =>
    flat_map (fun '(j, cell) =>
      flat_map (fun '(k, b) => if b : bool then [(i, j, k)] else [])
               (imap (fun k b => (k, b)) cell))
      (imap (fun j cell => (j, cell)) plane))
    (imap (fun i plane => (i, plane)) obs).

(** ** [update_entities] and [step], row by row and phase by phase *)

(** The shape shared by both loops of [update_entities]: iteration [i]
    reads row [i] and the player's position, writes row [i], and sets
    [done] from that row. *)
Definition rowwise_body (new_row : Z -> Z -> entity -> entity)
           (gain : Z -> Z -> entity -> Z) (verdict : Z -> Z -> entity -> bool)
           (acc : state * Z * bool) (i : nat) : state * Z * bool :=
  let '(s, reward, done) := acc in
  let x := row (entities s) i in
  (set_entities s
     (<[i := new_row (player_x s) (player_y s) x]> (entities s)),
   reward + gain (player_x s) (player_y s) x,
   verdict (player_x s) (player_y s) x).

(** The mask [collision] of a row for the player at [(px, py)], as the
    loops compute it, and its two kinds. *)
Definition touches (px py : Z) (x : entity) : bool :=
  array_eq_list [e_x x; e_y x] [px; py] && negb (e_filled x =? 0).

Definition gold_hit (px py : Z) (x : entity) : bool :=
  touches px py x && negb (e_gold x =? 0).

Definition enemy_hit (px py : Z) (x : entity) : bool :=
  touches px py x && negb (1 - e_gold x =? 0).

(** The row written back after a collision check. *)
Definition collect (px py : Z) (x : entity) : entity :=
  scale (1 - Z.b2z (gold_hit px py x)) x.

(** The position update of the second loop. *)
Definition advance (x : entity) : entity :=
  let slot_filled := negb (e_filled x =? 0) in
  Entity (Z.b2z slot_filled * (e_x x + 1 * e_lr x - 1 * (1 - e_lr x))
          + (1 - Z.b2z slot_filled) * e_x x)
         (e_y x) (e_lr x) (e_gold x) (e_filled x).

(** What one call of [update_entities] makes of a row. *)
Definition entity_step (px py : Z) (x : entity) : entity :=
  collect px py (advance (collect px py x)).

(** The state on which the difficulty ramp of [step] works. *)
Definition before_ramp (r : rng) (s : state) (action : Z) : state :=
  timer_phase (update_entities (player_phase (spawn_phase r s) action)).1.1.

(** A run of the environment: one [step] per pair of draws and action. *)
Fixpoint run (p : params) (s : state) (inputs : list (rng * Z)) : state :=
  match inputs with
  | [] => s
  | (r, action) :: rest => run p (out_state (step r p s action)) rest
  end.

(** ** Sample states and draws *)

Definition sample_rng : rng := Rng 1 0 [3; 1; 2; 0; 4; 5; 6; 7].

Definition enemy_at (x y lr : Z) : entity := Entity x y lr 0 1.

(** An enemy in slot 1, one in slot 3 at the right edge, both moving
    right; the move timer is not due. *)
Definition off_tick_state : state :=
  {| player_x := 5; player_y := 6; shot_timer := 0;
     spawn_speed := 10; spawn_timer := 4;
     move_speed := 5; move_timer := 3;
     ramp_timer := 100; ramp_index := 0;
     entities := [zero_entity; enemy_at 4 2 1; zero_entity; enemy_at 9 4 1;
                  zero_entity; zero_entity; zero_entity; zero_entity] |}.

(** The same table on a step where the move timer is due. *)
Definition move_tick_state : state := set_move_timer off_tick_state 0.

(** The player one row below an enemy that sits in slot 1. *)
Definition contact_state : state :=
  {| player_x := 5; player_y := 3; shot_timer := 0;
     spawn_speed := 10; spawn_timer := 4;
     move_speed := 5; move_timer := 3;
     ramp_timer := 100; ramp_index := 0;
     entities := [zero_entity; enemy_at 5 2 1; zero_entity; zero_entity;
                  zero_entity; zero_entity; zero_entity; zero_entity] |}.

(** All eight slots active and the spawn timer due. *)
Definition full_state : state :=
  {| player_x := 5; player_y := 5; shot_timer := 0;
     spawn_speed := 10; spawn_timer := 0;
     move_speed := 5; move_timer := 3;
     ramp_timer := 100; ramp_index := 0;
     entities := [enemy_at 3 1 1; enemy_at 3 2 1; enemy_at 3 3 1;
                  enemy_at 3 4 1; enemy_at 3 5 1; enemy_at 3 6 1;
                  enemy_at 3 7 1; enemy_at 3 8 1] |}.

(** Slot 0 free, slots 1..7 active, the spawn timer due. *)
Definition crowded_state : state :=
  set_entities full_state (<[0%nat := zero_entity]> (entities full_state)).

(** ** Cells of the observation *)

(** The position [(i, j, k)] exists in the array. *)
Definition inb (a : list (list (list bool))) (i j k : nat) : bool :=
  match a !! i with
  | Some plane =>
      match plane !! j with
      | Some cell => bool_decide (k < length cell)%nat
      | None => false
      end
  | None => false
  end.

(** The array has (at least) the shape (10, 10, 5). *)
Definition full_shape (a : list (list (list bool))) : Prop :=
  forall r c ch : nat,
    (r < 10)%nat -> (c < 10)%nat -> (ch < 5)%nat -> inb a r c ch = true.

(** The cell that an update addresses, if any. *)
Definition target (i j k : Z) (r c ch : nat) : bool :=
  match norm_index 10 i, norm_index 10 j, norm_index 5 k with
  | Some i', Some j', Some k' =>
      bool_decide (r = i' /\ c = j' /\ ch = k')
  | _, _, _ => false
  end.

(** The column behind an entity, [back_x] in [get_obs]. *)
Definition back_x (x : entity) : Z :=
  (e_x x - 1) * e_lr x + (e_x x + 1) * (1 - e_lr x).

(** The writers of the observation as the description has them: the player
    sets its cell of channel 0; an active entity sets its own cell in the
    gold channel 3 or the enemy channel 1, and the cell behind it in the
    trail channel 2 when that column is within [0,9]; an inactive entity
    sets nothing. *)
Definition primary_channel (x : entity) : Z :=
  if e_gold x =? 0 then 1 else 3.

Definition player_sets (s : state) (r c ch : nat) : bool :=
  (player_y s =? Z.of_nat r) && (player_x s =? Z.of_nat c)
  && (Z.of_nat ch =? 0).

Definition entity_sets (x : entity) (r c ch : nat) : bool :=
  negb (e_filled x =? 0)
  && ((e_y x =? Z.of_nat r) && (e_x x =? Z.of_nat c)
      && (primary_channel x =? Z.of_nat ch)
      || (e_y x =? Z.of_nat r) && (back_x x =? Z.of_nat c)
         && (Z.of_nat ch =? 2)
         && ((0 <=? back_x x) && (back_x x <=? 9))).

Definition some_writer_sets (s : state) (r c ch : nat) : bool :=
  player_sets s r c ch || existsb (fun x => entity_sets x r c ch) (entities s).

(** The data model: flags are bits, active entities and the player are on
    the 10 x 10 grid. *)
Definition entity_ok (x : entity) : Prop :=
  e_filled x = 0
  \/ (e_filled x = 1
      /\ (e_lr x = 0 \/ e_lr x = 1)
      /\ (e_gold x = 0 \/ e_gold x = 1)
      /\ 0 <= e_x x <= 9 /\ 0 <= e_y x <= 9).

Definition in_grid (s : state) : Prop :=
  0 <= player_x s <= 9 /\ 0 <= player_y s <= 9
  /\ Forall entity_ok (entities s).

(** No two active entities of the table share a row of the grid. *)
Fixpoint rows_distinct (l : list entity) : Prop :=
  match l with
  | [] => True
  | x :: l' =>
      Forall (fun y => e_filled x = 0 \/ e_filled y = 0 \/ e_y y <> e_y x) l'
      /\ rows_distinct l'
  end.

(** The one write of [false] that lands on the grid: the trail of an entity
    whose trailing column is -1 goes to column 9 of its row. *)
Definition cancels (x : entity) (r c ch : nat) : bool :=
  (back_x x =? -1) && (e_y x =? Z.of_nat r) && (Z.of_nat c =? 9)
  && (Z.of_nat ch =? 2).

(** No active entity of the table cancels the cell. *)
Definition uncancelled (s : state) (r c ch : nat) : bool :=
  forallb (fun x => (e_filled x =? 0) || negb (cancels x r c ch))
          (entities s).

(** Two active entities on row 2: the one of slot 1 moves left from column
    8, the one of slot 2 moves right from column 0. *)
Definition shared_row_state : state :=
  {| player_x := 5; player_y := 5; shot_timer := 0;
     spawn_speed := 10; spawn_timer := 4;
     move_speed := 5; move_timer := 3;
     ramp_timer := 100; ramp_index := 0;
     entities := [zero_entity; Entity 8 2 0 0 1; Entity 0 2 1 0 1;
                  zero_entity; zero_entity; zero_entity; zero_entity;
                  zero_entity] |}.

(** The state [shared_row_state] without the entity of slot 2. *)
Definition single_row_state : state :=
  set_entities shared_row_state
    (<[2%nat := zero_entity]> (entities shared_row_state)).

(** Two active entities on row 2 whose trails fall on the same cell: the
    one of slot 1 moves right from column 4, the one of slot 2 moves left
    from column 2. *)
Definition double_trail_state : state :=
  set_entities shared_row_state
    [zero_entity; Entity 4 2 1 0 1; Entity 2 2 0 0 1; zero_entity;
     zero_entity; zero_entity; zero_entity; zero_entity].

(** A game of twenty steps from the initial state, with the action "down"
    and draws that spawn enemies moving left. *)
Definition left_rng : rng := Rng 0 0 [0; 1; 2; 3; 4; 5; 6; 7].

Definition twenty_steps_state : state :=
  run params_asterix (initial_state params_asterix)
      (replicate 20 (left_rng, 3)).

(** ** Sums over rows *)

(** The sum of [f] over the rows of [t] at the indices [l]. *)
Definition row_sum (f : entity -> Z) (t : list entity) (l : list nat) : Z :=
  fold_right (fun i acc => f (row t i) + acc) 0 l.

(** ** Shapes *)

(** Every active row of the table sits in the slot its grid row names:
    the table has eight rows, and an active row in slot [k] has the filled
    flag 1 and the grid row [k + 1]. *)
Definition slots_ok (t : list entity) : Prop :=
  length t = 8%nat
  /\ forall (k : nat) (x : entity),
       t !! k = Some x ->
       e_filled x = 0 \/ (e_filled x = 1 /\ e_y x = Z.of_nat k + 1).

(** The array has the shape [(d0, d1, d2)]. *)
Definition shape3 (d0 d1 d2 : nat) (a : list (list (list bool))) : Prop :=
  length a = d0
  /\ Forall (fun plane : list (list bool) =>
               length plane = d1
               /\ Forall (fun cell : list bool => length cell = d2) plane) a.

(** The flags the renderer computes channels from are bits. *)
Definition flags_ok (x : entity) : Prop :=
  (e_filled x = 0 \/ e_filled x = 1) /\ (e_gold x = 0 \/ e_gold x = 1).

(** The gold draws of a run are bits, as [jax.random.choice] over [1, 0]
    gives them. *)
Definition bit_draws (inputs : list (rng * Z)) : Prop :=
  Forall (fun ra : rng * Z => draw_gold ra.1 = 0 \/ draw_gold ra.1 = 1) inputs.

(** ** The free-slot search *)

Lemma while_loop_step (occ : list Z) (val : Z * Z) :
  while_loop occ val =
  if condition_to_check val then while_loop occ (update occ val) else val.
Proof.
  funelim (while_loop occ val); rewrite Hc; reflexivity.
Qed.

(** The loop leaves through its condition, with the counter between its
    start value and 7. *)
Lemma while_loop_exit (occ : list Z) (val : Z * Z) :
  val.1 <= 7 ->
  condition_to_check (while_loop occ val) = false
  /\ val.1 <= (while_loop occ val).1 <= 7.
Proof.
  funelim (while_loop occ val); intros Hle.
  - pose proof Hc as Hc'. unfold condition_to_check in Hc'.
    apply andb_prop in Hc' as [Hlt _]. apply Z.ltb_lt in Hlt.
    destruct H as [Hex Hrg]; [simpl; lia|].
    split; [exact Hex|]. simpl in Hrg. lia.
  - split; [exact Hc|lia].
Qed.

(** The search starts by moving to index 1: index 0 is never looked at and
    never returned. *)
Lemma while_sample_slots_first (r : rng) (occ : list Z) :
  while_sample_slots r occ = while_loop occ (1, Z.b2z (gather occ 1 =? 0)).
Proof.
  unfold while_sample_slots. rewrite while_loop_step. reflexivity.
Qed.

Lemma while_sample_slots_range (r : rng) (occ : list Z) :
  1 <= (while_sample_slots r occ).1 <= 7.
Proof.
  rewrite while_sample_slots_first.
  destruct (while_loop_exit occ (1, Z.b2z (gather occ 1 =? 0))) as [_ H];
    simpl in *; lia.
Qed.

(** Two occupancy vectors that agree on the indices 1..7 give the same
    search, whatever they hold at index 0. *)
Lemma while_loop_agree (occ occ' : list Z) (val : Z * Z) :
  (forall i, 1 <= i <= 7 -> gather occ i = gather occ' i) ->
  0 <= val.1 ->
  while_loop occ val = while_loop occ' val.
Proof.
  intros Hag. funelim (while_loop occ val); intros Hpos.
  - rewrite (while_loop_step occ'), Hc.
    pose proof Hc as Hc'. unfold condition_to_check in Hc'.
    apply andb_prop in Hc' as [Hlt _]. apply Z.ltb_lt in Hlt.
    assert (Hup : update state_entities val = update occ' val).
    { unfold update. simpl. rewrite Hag by lia. reflexivity. }
    rewrite <- Hup. apply H; [exact Hag|]. simpl. lia.
  - rewrite (while_loop_step occ'), Hc. reflexivity.
Qed.

(** ** Loops that rewrite the table row by row *)

Lemma row_lookup (t : list entity) (i : nat) (x : entity) :
  t !! i = Some x -> row t i = x.
Proof. unfold row. intros ->. reflexivity. Qed.

Lemma insert_row_lookup (t : list entity) (i j : nat) (v : entity -> entity) :
  <[i := v (row t i)]> t !! j
  = if decide (i = j) then v <$> t !! j else t !! j.
Proof.
  rewrite list_lookup_insert.
  destruct (decide (i = j)) as [->|Hne].
  - destruct (t !! j) as [x|] eqn:Hj.
    + rewrite (row_lookup _ _ _ Hj).
      apply lookup_lt_Some in Hj.
      rewrite decide_True by (split; [reflexivity|exact Hj]). reflexivity.
    + apply lookup_ge_None in Hj.
      rewrite decide_False by lia. reflexivity.
  - rewrite decide_False by tauto. reflexivity.
Qed.

Section rowwise.
Variable new_row : Z -> Z -> entity -> entity.
Variable gain : Z -> Z -> entity -> Z.
Variable verdict : Z -> Z -> entity -> bool.

Lemma rowwise_fold (l : list nat) :
  NoDup l ->
  forall (s : state) (reward : Z) (done : bool),
    (fold_left (rowwise_body new_row gain verdict) l (s, reward, done)).1.1
    = set_entities s
        (entities (fold_left (rowwise_body new_row gain verdict) l (s, reward, done)).1.1)
    /\ (forall j : nat,
           entities (fold_left (rowwise_body new_row gain verdict) l (s, reward, done)).1.1 !! j
           = if decide (j ∈ l)
             then new_row (player_x s) (player_y s) <$> entities s !! j
             else entities s !! j)
    /\ (fold_left (rowwise_body new_row gain verdict) l (s, reward, done)).2
       = match last l with
         | Some i => verdict (player_x s) (player_y s)
                             (row (entities s) i)
         | None => done
         end.
Proof.
  induction l as [|a l IH]; intros Hnd s reward done.
  - cbn [fold_left fst snd]. split; [destruct s; reflexivity|].
    split; [|reflexivity].
    intros j. rewrite decide_False by (apply not_elem_of_nil). reflexivity.
  - apply NoDup_cons in Hnd as [Hnotin Hnd].
    change (fold_left (rowwise_body new_row gain verdict) (a :: l) (s, reward, done))
      with (fold_left (rowwise_body new_row gain verdict) l (rowwise_body new_row gain verdict (s, reward, done) a)).
    unfold rowwise_body at 2 4 6 8.
    set (s1 := set_entities s _).
    destruct (IH Hnd s1 (reward + gain (player_x s) (player_y s)
                                      (row (entities s) a))
                 (verdict (player_x s) (player_y s) (row (entities s) a)))
      as (Hst & Hrows & Hdone).
    assert (Hlook : forall j, entities s1 !! j
              = if decide (a = j)
                then new_row (player_x s) (player_y s) <$> entities s !! j
                else entities s !! j).
    { intros j. apply insert_row_lookup. }
    split; [|split].
    + rewrite Hst. reflexivity.
    + intros j. rewrite Hrows, Hlook. simpl.
      destruct (decide (j ∈ a :: l)) as [H1|H1];
        rewrite elem_of_cons in H1;
        destruct (decide (j ∈ l)) as [H2|H2];
        destruct (decide (a = j)) as [H3|H3];
        try reflexivity; exfalso; subst; intuition congruence.
    + rewrite Hdone.
      destruct l as [|b l']; [reflexivity|].
      change (last (a :: b :: l')) with (last (b :: l')).
      destruct (last (b :: l')) as [i|] eqn:Hlast.
      * assert (Hne : a <> i).
        { intros ->. apply Hnotin. apply last_Some_elem_of. exact Hlast. }
        unfold row. rewrite Hlook, decide_False by exact Hne.
        reflexivity.
      * apply last_None in Hlast. discriminate.
Qed.

End rowwise.

(** ** [update_entities], row by row *)

Lemma first_loop_rowwise (acc : state * Z * bool) (i : nat) :
  first_loop_body acc i
  = rowwise_body collect (fun px py x => Z.b2z (gold_hit px py x))
                 enemy_hit acc i.
Proof. destruct acc as [[s reward] done]. reflexivity. Qed.

Lemma second_loop_rowwise (acc : state * Z * bool) (i : nat) :
  second_loop_body acc i
  = rowwise_body (fun px py x => collect px py (advance x))
                 (fun px py x => Z.b2z (gold_hit px py (advance x)))
                 (fun px py x => enemy_hit px py (advance x)) acc i.
Proof.
  destruct acc as [[s reward] done].
  unfold second_loop_body, rowwise_body.
  cbn [entities set_entities]. rewrite list_insert_insert_eq. reflexivity.
Qed.

Lemma fold_left_ext {A B : Type} (f g : A -> B -> A) (l : list B) (a : A) :
  (forall a b, f a b = g a b) -> fold_left f l a = fold_left g l a.
Proof.
  intros Hfg. revert a. induction l as [|b l IH]; intros a; simpl.
  - reflexivity.
  - rewrite Hfg. apply IH.
Qed.

Lemma collect_zero (px py : Z) : collect px py zero_entity = zero_entity.
Proof.
  reflexivity.
Qed.

Lemma row_fmap (t t' : list entity) (j : nat) (v : entity -> entity) :
  v zero_entity = zero_entity ->
  t' !! j = v <$> t !! j ->
  row t' j = v (row t j).
Proof.
  intros Hz Hl. unfold row. rewrite Hl.
  destruct (t !! j); simpl; [reflexivity|symmetry; exact Hz].
Qed.

(** [update_entities] changes the table and [move_timer] and nothing else;
    each of the rows 0..7 is rewritten from its own old value and the
    player's position; [done] is what the last iteration of the second loop
    assigns, the mask [collision_enemy] of row 7 after its move. *)
Lemma update_entities_spec (s : state) :
  (update_entities s).1.1
  = set_move_timer (set_entities s (entities (update_entities s).1.1))
                   (move_speed s)
  /\ (forall j : nat,
         entities (update_entities s).1.1 !! j
         = if decide (j < 8)%nat
           then entity_step (player_x s) (player_y s) <$> entities s !! j
           else entities s !! j)
  /\ (update_entities s).2
     = enemy_hit (player_x s) (player_y s)
         (advance (collect (player_x s) (player_y s) (row (entities s) 7))).
Proof.
  unfold update_entities. cbv zeta.
  rewrite (fold_left_ext first_loop_body _ _ _ first_loop_rowwise).
  destruct (rowwise_fold collect (fun px py x => Z.b2z (gold_hit px py x))
              enemy_hit (seq 0 8) (NoDup_seq 0 8) s 0 false)
    as (Hst1 & Hrows1 & _).
  destruct (fold_left _ (seq 0 8) (s, 0, false)) as [[s1 reward1] done1].
  cbn [fst snd] in Hst1, Hrows1.
  rewrite (fold_left_ext second_loop_body _ _ _ second_loop_rowwise).
  set (s2 := set_move_timer s1 _).
  destruct (rowwise_fold (fun px py x => collect px py (advance x))
              (fun px py x => Z.b2z (gold_hit px py (advance x)))
              (fun px py x => enemy_hit px py (advance x))
              (seq 0 8) (NoDup_seq 0 8) s2 reward1 done1)
    as (Hst2 & Hrows2 & Hdone2).
  destruct (fold_left _ (seq 0 8) (s2, reward1, done1))
    as [[s3 reward3] done3].
  cbn [fst snd] in *.
  assert (Hp2 : player_x s2 = player_x s /\ player_y s2 = player_y s
                /\ entities s2 = entities s1 /\ move_speed s1 = move_speed s).
  { subst s2. rewrite Hst1. repeat split. }
  destruct Hp2 as (Hpx & Hpy & He2 & Hms).
  rewrite Hpx, Hpy, He2 in Hrows2, Hdone2.
  split; [|split].
  - rewrite Hst2. subst s2. rewrite Hst1.
    unfold set_entities, set_move_timer. cbn. f_equal.
    destruct (move_timer s =? 0); simpl; lia.
  - intros j. rewrite Hrows2, Hrows1.
    destruct (decide (j ∈ seq 0 8)) as [Hin|Hout];
      rewrite elem_of_seq in *;
      destruct (decide (j < 8)%nat); try lia; [|reflexivity].
    unfold entity_step. destruct (entities s !! j); reflexivity.
  - rewrite Hdone2. change (last (seq 0 8)) with (Some 7%nat).
    cbv iota beta.
    assert (Hrow : row (entities s1) 7
                   = collect (player_x s) (player_y s) (row (entities s) 7)).
    { apply (row_fmap (entities s)); [apply collect_zero|].
      rewrite Hrows1. rewrite decide_True; [reflexivity|].
      apply elem_of_seq. lia. }
    rewrite Hrow. reflexivity.
Qed.

(** ** The phases of [step] *)

Lemma step_state (r : rng) (p : params) (s : state) (action : Z) :
  out_state (step r p s action) = ramp_phase p (before_ramp r s action).
Proof.
  unfold step, before_ramp.
  destruct (update_entities _) as [[s1 reward] done]. reflexivity.
Qed.

Lemma spawn_phase_state (r : rng) (s : state) :
  spawn_phase r s
  = set_spawn_timer (set_entities s (entities (spawn_phase r s)))
                    (spawn_timer (spawn_phase r s)).
Proof. unfold spawn_phase. destruct (spawn_entity r s). reflexivity. Qed.

(** Apart from the table and the two countdowns, the state that reaches the
    ramp is the old one with the player moved. *)
Lemma before_ramp_scalars (r : rng) (s : state) (action : Z) :
  let s1 := before_ramp r s action in
  player_x s1 = player_x (player_phase s action)
  /\ player_y s1 = player_y (player_phase s action)
  /\ spawn_speed s1 = spawn_speed s
  /\ move_speed s1 = move_speed s
  /\ ramp_timer s1 = ramp_timer s
  /\ ramp_index s1 = ramp_index s
  /\ shot_timer s1 = shot_timer s
  /\ move_timer s1 = move_speed s - 1.
Proof.
  unfold before_ramp.
  destruct (update_entities_spec (player_phase (spawn_phase r s) action))
    as (Hst & _ & _).
  rewrite Hst, (spawn_phase_state r s). cbn. repeat split.
Qed.

Lemma ramp_phase_player (p : params) (s : state) :
  player_x (ramp_phase p s) = player_x s
  /\ player_y (ramp_phase p s) = player_y s.
Proof. split; reflexivity. Qed.

Lemma player_phase_bounds (s : state) (action : Z) :
  0 <= player_x s <= 9 -> 1 <= player_y s <= 8 ->
  0 <= player_x (player_phase s action) <= 9
  /\ 1 <= player_y (player_phase s action) <= 8.
Proof.
  intros Hx Hy. unfold player_phase. cbn [player_x player_y set_player].
  destruct (Z.eqb_spec action 0), (Z.eqb_spec action 1),
    (Z.eqb_spec action 2), (Z.eqb_spec action 3);
    cbn [Z.b2z negb andb]; lia.
Qed.

Lemma step_player (r : rng) (p : params) (s : state) (action : Z) :
  player_x (out_state (step r p s action)) = player_x (player_phase s action)
  /\ player_y (out_state (step r p s action))
     = player_y (player_phase s action).
Proof.
  rewrite step_state.
  destruct (before_ramp_scalars r s action) as (Hx & Hy & _).
  destruct (ramp_phase_player p (before_ramp r s action)) as [Rx Ry].
  rewrite Rx, Ry. split; assumption.
Qed.

(** ** Properties of the engine *)

(** C6. For a player inside x in [0,9], y in [1,8] and any integer action
    code, one step moves the player as follows: 0 gives x := max(0, x-1),
    2 gives x := min(9, x+1), 1 gives y := max(1, y-1), 3 gives
    y := min(8, y+1), each leaving the other coordinate alone, and any code
    outside 0..3 leaves both coordinates unchanged; hence after any run of
    steps the player is still inside x in [0,9], y in [1,8]. *)
Theorem player_movement (p : params) (s : state) :
  0 <= player_x s <= 9 -> 1 <= player_y s <= 8 ->
  (forall (r : rng) (action : Z),
      let s' := out_state (step r p s action) in
      (action = 0 ->
       player_x s' = Z.max 0 (player_x s - 1) /\ player_y s' = player_y s)
      /\ (action = 2 ->
          player_x s' = Z.min 9 (player_x s + 1) /\ player_y s' = player_y s)
      /\ (action = 1 ->
          player_y s' = Z.max 1 (player_y s - 1) /\ player_x s' = player_x s)
      /\ (action = 3 ->
          player_y s' = Z.min 8 (player_y s + 1) /\ player_x s' = player_x s)
      /\ (action <> 0 -> action <> 1 -> action <> 2 -> action <> 3 ->
          player_x s' = player_x s /\ player_y s' = player_y s))
  /\ (forall inputs : list (rng * Z),
         0 <= player_x (run p s inputs) <= 9
         /\ 1 <= player_y (run p s inputs) <= 8).
Proof.
  intros Hx Hy. split.
  - intros r action. cbv zeta.
    destruct (step_player r p s action) as [-> ->].
    unfold player_phase. cbn [player_x player_y set_player].
    destruct (Z.eqb_spec action 0), (Z.eqb_spec action 1),
      (Z.eqb_spec action 2), (Z.eqb_spec action 3);
      cbn [Z.b2z negb andb]; repeat split; intros; lia.
  - intros inputs. revert s Hx Hy.
    induction inputs as [|[r action] rest IH]; intros s Hx Hy.
    + cbn [run]. split; assumption.
    + cbn [run]. destruct (step_player r p s action) as [Ex Ey].
      destruct (player_phase_bounds s action Hx Hy) as [Bx By].
      apply IH; [rewrite Ex|rewrite Ey]; assumption.
Qed.

Lemma player_movement_witness :
  player_x (out_state (step (Rng 1 0 [0; 1; 2; 3; 4; 5; 6; 7]) params_asterix
                            (initial_state params_asterix) 2)) = 6
  /\ player_y (out_state (step (Rng 1 0 [0; 1; 2; 3; 4; 5; 6; 7])
                               params_asterix
                               (initial_state params_asterix) 2)) = 5.
Proof.
  assert (Hx : 0 <= player_x (initial_state params_asterix) <= 9)
    by (simpl; lia).
  assert (Hy : 1 <= player_y (initial_state params_asterix) <= 8)
    by (simpl; lia).
  destruct (player_movement params_asterix (initial_state params_asterix)
              Hx Hy) as [Hstep _].
  destruct (Hstep (Rng 1 0 [0; 1; 2; 3; 4; 5; 6; 7]) 2)
    as (_ & Hright & _).
  exact (Hright eq_refl).
Defined.

(** The ramp, on the state it is applied to. *)
Lemma ramp_phase_spec (p : params) (s : state) :
  0 <= move_speed s ->
  ramping p <> 0 ->
  spawn_speed s > 1 \/ move_speed s > 1 ->
  (ramp_timer s < 0 ->
   ramp_timer (ramp_phase p s) = ramp_interval p
   /\ move_speed (ramp_phase p s)
      = (if (move_speed s >? 0) && Z.odd (ramp_index s)
         then move_speed s - 1 else move_speed s)
   /\ spawn_speed (ramp_phase p s)
      = (if spawn_speed s >? 1 then spawn_speed s - 1 else spawn_speed s)
   /\ ramp_index (ramp_phase p s) = ramp_index s + 1)
  /\ (0 <= ramp_timer s ->
      ramp_timer (ramp_phase p s) = ramp_timer s - 1
      /\ move_speed (ramp_phase p s) = move_speed s
      /\ spawn_speed (ramp_phase p s) = spawn_speed s
      /\ ramp_index (ramp_phase p s) = ramp_index s).
Proof.
  intros Hms Hramp Hspeed.
  unfold ramp_phase.
  cbn [ramp_timer move_speed spawn_speed ramp_index set_ramp_timer
       set_move_speed set_spawn_speed set_ramp_index].
  rewrite (Zmod_odd (ramp_index s)).
  rewrite !Z.gtb_ltb, Z.geb_leb.
  destruct (Z.eqb_spec (ramping p) 0) as [|_]; [contradiction|].
  assert (Hor : (1 <? spawn_speed s) || (1 <? move_speed s) = true).
  { apply orb_true_iff. rewrite !Z.ltb_lt. lia. }
  rewrite Hor. cbn [negb andb].
  split; intros Ht.
  - destruct (Z.leb_spec 0 (ramp_timer s)) as [|_]; [lia|].
    cbn [Z.b2z]. change (1 - 0 =? 0) with false. cbn [negb andb].
    clear Hor Hspeed.
    destruct (Z.eqb_spec (move_speed s) 0) as [E0|N0];
      destruct (Z.ltb_spec 0 (move_speed s)) as [L0|G0];
      destruct (Z.odd (ramp_index s));
      destruct (Z.ltb_spec 1 (spawn_speed s));
      cbn [Z.b2z andb negb Z.eqb]; repeat split; lia.
  - destruct (Z.leb_spec 0 (ramp_timer s)) as [_|]; [|lia].
    cbn [Z.b2z]. change (1 - 1 =? 0) with true. cbn [negb andb Z.b2z].
    repeat split; lia.
Qed.

(** C9. On a step where ramping is enabled and [spawn_speed > 1] or
    [move_speed > 1] (with [move_speed] non-negative, as the data model has
    it): if the interval has elapsed ([ramp_timer] below 0, the decrement
    branch not taken) the step resets [ramp_timer] to the configured
    interval, decrements [move_speed] exactly when [move_speed > 0] and
    [ramp_index] is odd, decrements [spawn_speed] exactly when
    [spawn_speed > 1], and adds 1 to [ramp_index]; otherwise it decrements
    [ramp_timer] by 1 and leaves both speeds and [ramp_index] as they were. *)
Theorem difficulty_ramp (r : rng) (p : params) (s : state) (action : Z) :
  0 <= move_speed s ->
  ramping p <> 0 ->
  spawn_speed s > 1 \/ move_speed s > 1 ->
  let s' := out_state (step r p s action) in
  (ramp_timer s < 0 ->
   ramp_timer s' = ramp_interval p
   /\ move_speed s'
      = (if (move_speed s >? 0) && Z.odd (ramp_index s)
         then move_speed s - 1 else move_speed s)
   /\ spawn_speed s'
      = (if spawn_speed s >? 1 then spawn_speed s - 1 else spawn_speed s)
   /\ ramp_index s' = ramp_index s + 1)
  /\ (0 <= ramp_timer s ->
      ramp_timer s' = ramp_timer s - 1
      /\ move_speed s' = move_speed s
      /\ spawn_speed s' = spawn_speed s
      /\ ramp_index s' = ramp_index s).
Proof.
  intros Hms Hramp Hspeed. cbv zeta. rewrite step_state.
  destruct (before_ramp_scalars r s action)
    as (_ & _ & Hss & Hmv & Hrt & Hri & _).
  pose proof (ramp_phase_spec p (before_ramp r s action)) as H.
  rewrite Hss, Hmv, Hrt, Hri in H.
  exact (H Hms Hramp Hspeed).
Qed.

Lemma difficulty_ramp_witness :
  ramp_timer (out_state (step sample_rng params_asterix
                              (initial_state params_asterix) 1)) = 99
  /\ move_speed (out_state (step sample_rng params_asterix
                                 (initial_state params_asterix) 1)) = 5
  /\ spawn_speed (out_state (step sample_rng params_asterix
                                  (initial_state params_asterix) 1)) = 10
  /\ ramp_index (out_state (step sample_rng params_asterix
                                 (initial_state params_asterix) 1)) = 0.
Proof.
  assert (Hms : 0 <= move_speed (initial_state params_asterix))
    by (simpl; lia).
  assert (Hramp : ramping params_asterix <> 0) by (simpl; lia).
  assert (Hspeed : spawn_speed (initial_state params_asterix) > 1
                   \/ move_speed (initial_state params_asterix) > 1)
    by (left; simpl; lia).
  assert (Htimer : 0 <= ramp_timer (initial_state params_asterix))
    by (simpl; lia).
  exact (proj2 (difficulty_ramp sample_rng params_asterix
                  (initial_state params_asterix) 1 Hms Hramp Hspeed)
               Htimer).
Defined.

(** C7. Whatever the configuration and the draw, [reset] returns a state
    with the player at (5,5), [spawn_speed] and [spawn_timer] equal to the
    configured initial spawn speed, [move_speed] and [move_timer] equal to
    the configured initial move interval, [ramp_timer] equal to the ramp
    interval, [ramp_index] 0 and eight entity slots, all inactive; the
    observation it returns is a 10 x 10 x 4 array whose only true cell is
    row 5, column 5 of channel 0, the player channel. *)
Theorem reset_initial (r : rng) (p : params) :
  let obs := (reset r p).1 in
  let s := (reset r p).2 in
  player_x s = 5 /\ player_y s = 5
  /\ spawn_speed s = init_spawn_speed p /\ spawn_timer s = init_spawn_speed p
  /\ move_speed s = init_move_interval p
  /\ move_timer s = init_move_interval p
  /\ ramp_timer s = ramp_interval p
  /\ ramp_index s = 0
  /\ length (entities s) = 8%nat
  /\ Forall (fun x => e_filled x = 0) (entities s)
  /\ length obs = 10%nat
  /\ Forall (fun plane => length plane = 10%nat
                          /\ Forall (fun cell : list bool =>
                                       length cell = 4%nat) plane) obs
  /\ true_cells obs = [(5, 5, 0)%nat].
Proof.
  cbv zeta. unfold reset. cbn [fst snd].
  repeat match goal with |- _ /\ _ => split end; try reflexivity.
  - cbn. repeat constructor.
  - vm_compute. repeat constructor.
Qed.

(** ** Slot 0 *)

Lemma spawn_entity_slot (r : rng) (s : state) :
  (spawn_entity r s).2 = (while_sample_slots r (e_filled <$> entities s)).1
  /\ (spawn_entity r s).1
     = Entity ((1 - draw_lr r) * 9)
              ((while_sample_slots r (e_filled <$> entities s)).1 + 1)
              (draw_lr r) (draw_gold r)
              (while_sample_slots r (e_filled <$> entities s)).2.
Proof.
  unfold spawn_entity.
  destruct (while_sample_slots r (e_filled <$> entities s)) as [slot free].
  split; reflexivity.
Qed.

Lemma spawn_phase_entities (r : rng) (s : state) :
  entities (spawn_phase r s)
  = table_add
      (table_scale (Z.b2z (spawn_timer s =? 0))
         (index_update_row (entities s) (spawn_entity r s).2
                           (spawn_entity r s).1))
      (table_scale (Z.b2z (spawn_timer s >? 0)) (entities s)).
Proof. unfold spawn_phase. destruct (spawn_entity r s). reflexivity. Qed.

Lemma spawn_phase_spawn_timer (r : rng) (s : state) :
  spawn_timer (spawn_phase r s)
  = Z.b2z (spawn_timer s =? 0) * spawn_speed s
    + Z.b2z (spawn_timer s >? 0) * spawn_timer s.
Proof. unfold spawn_phase. destruct (spawn_entity r s). reflexivity. Qed.

(** Writing at a slot of 1..7 leaves row 0 alone. *)
Lemma index_update_row_head (t : list entity) (slot : Z) (x : entity) :
  1 <= slot <= 7 -> index_update_row t slot x !! 0%nat = t !! 0%nat.
Proof.
  intros Hs. unfold index_update_row, norm_index.
  destruct (Z.ltb_spec slot 0) as [|_]; [lia|].
  destruct ((0 <=? slot) && (slot <? Z.of_nat (length t))); [|reflexivity].
  apply list_lookup_insert_ne. lia.
Qed.

Lemma row_table_add_scale (b1 b2 : Z) (t u : list entity) :
  t !! 0%nat = u !! 0%nat ->
  e_filled (row u 0) = 0 ->
  e_filled (row (table_add (table_scale b1 t) (table_scale b2 u)) 0) = 0.
Proof.
  intros Htu Hu. unfold row, table_add, table_scale in *.
  rewrite lookup_zip_with, !list_lookup_fmap, Htu.
  destruct (u !! 0%nat) as [x|]; simpl in *; [|reflexivity].
  rewrite Hu. lia.
Qed.

Lemma entity_step_unfilled (px py : Z) (x : entity) :
  e_filled x = 0 -> e_filled (entity_step px py x) = 0.
Proof.
  intros Hx. unfold entity_step, collect, scale, advance.
  cbn [e_filled]. rewrite Hx. lia.
Qed.

Lemma entity_step_zero (px py : Z) :
  entity_step px py zero_entity = zero_entity.
Proof.
  unfold entity_step. rewrite collect_zero. reflexivity.
Qed.

Lemma ramp_phase_entities (p : params) (s : state) :
  entities (ramp_phase p s) = entities s.
Proof. reflexivity. Qed.

Lemma timer_phase_entities (s : state) :
  entities (timer_phase s) = entities s.
Proof. reflexivity. Qed.

Lemma player_phase_entities (s : state) (action : Z) :
  entities (player_phase s action) = entities s.
Proof. reflexivity. Qed.

Lemma player_phase_after_spawn (r : rng) (s : state) (action : Z) :
  player_x (player_phase (spawn_phase r s) action)
  = player_x (player_phase s action)
  /\ player_y (player_phase (spawn_phase r s) action)
     = player_y (player_phase s action).
Proof.
  unfold player_phase, spawn_phase. destruct (spawn_entity r s).
  split; reflexivity.
Qed.

(** The table after one step, row by row: rows 0..7 are the rows left by
    the spawn phase, passed through [update_entities] with the player at
    its new position. *)
Lemma step_entities (r : rng) (p : params) (s : state) (action : Z)
      (j : nat) :
  entities (out_state (step r p s action)) !! j
  = if decide (j < 8)%nat
    then entity_step (player_x (player_phase s action))
                     (player_y (player_phase s action))
         <$> entities (spawn_phase r s) !! j
    else entities (spawn_phase r s) !! j.
Proof.
  rewrite step_state, ramp_phase_entities. unfold before_ramp.
  rewrite timer_phase_entities.
  destruct (update_entities_spec (player_phase (spawn_phase r s) action))
    as (_ & Hrows & _).
  rewrite Hrows, player_phase_entities.
  destruct (player_phase_after_spawn r s action) as [-> ->]. reflexivity.
Qed.

Lemma step_keeps_slot_zero (r : rng) (p : params) (s : state) (action : Z) :
  e_filled (row (entities s) 0) = 0 ->
  e_filled (row (entities (out_state (step r p s action))) 0) = 0.
Proof.
  intros Hinv.
  rewrite (row_fmap (entities (spawn_phase r s)) _ 0
             (entity_step (player_x (player_phase s action))
                          (player_y (player_phase s action)))).
  - apply entity_step_unfilled.
    rewrite spawn_phase_entities.
    apply row_table_add_scale; [|exact Hinv].
    apply index_update_row_head.
    destruct (spawn_entity_slot r s) as [-> _].
    apply while_sample_slots_range.
  - apply entity_step_zero.
  - rewrite step_entities. rewrite decide_True by lia. reflexivity.
Qed.

(** C10. The free-slot search returns an index in [1,7] whatever the draws
    and the occupancy, and its result does not depend on what the occupancy
    vector holds at index 0 (index 0 is never examined); so the slot a
    spawned entity is written to is never 0, and in every state reachable
    from a reset the entity slot 0 is inactive. *)
Theorem slot_zero_never_used :
  (forall (r : rng) (occ : list Z),
      1 <= (while_sample_slots r occ).1 <= 7)
  /\ (forall (r : rng) (occ occ' : list Z),
         (forall i, 1 <= i <= 7 -> gather occ i = gather occ' i) ->
         while_sample_slots r occ = while_sample_slots r occ')
  /\ (forall (r : rng) (s : state), 1 <= (spawn_entity r s).2 <= 7)
  /\ (forall (p : params) (s : state),
         reachable p s -> e_filled (row (entities s) 0) = 0).
Proof.
  split; [exact while_sample_slots_range|].
  split; [|split].
  - intros r occ occ' Hag. unfold while_sample_slots.
    apply while_loop_agree; [exact Hag|simpl; lia].
  - intros r s. destruct (spawn_entity_slot r s) as [-> _].
    apply while_sample_slots_range.
  - intros p s Hreach. induction Hreach as [r|r s action _ IH].
    + reflexivity.
    + apply step_keeps_slot_zero. exact IH.
Qed.

Lemma slot_zero_never_used_witness :
  e_filled
    (row (entities
            (out_state (step (Rng 1 0 [0; 1; 2; 3; 4; 5; 6; 7]) params_asterix
                             (reset (Rng 0 1 [7; 6; 5; 4; 3; 2; 1; 0])
                                    params_asterix).2 3))) 0) = 0.
Proof.
  destruct slot_zero_never_used as (_ & _ & _ & Hreach).
  apply (Hreach params_asterix).
  apply reachable_step. apply reachable_reset.
Defined.

(** ** Where the engine departs from its description *)

(** When the slots 1..7 are all occupied the search runs to its bound and
    reports slot 7 with the free flag 0, whatever slot 0 holds. *)
Lemma saturated_search (r : rng) (occ : list Z) :
  (forall i, 1 <= i <= 7 -> gather occ i <> 0) ->
  while_sample_slots r occ = (7, 0).
Proof.
  intros Hocc.
  assert (Hb : forall i, 1 <= i <= 7 -> (gather occ i =? 0) = false).
  { intros i Hi. apply Z.eqb_neq. apply Hocc. exact Hi. }
  rewrite while_sample_slots_first, (Hb 1) by lia.
  do 6 (rewrite while_loop_step; unfold update;
        cbn [condition_to_check fst snd Z.b2z Z.ltb Z.eqb Z.compare
             Pos.compare Pos.compare_cont andb Z.add Pos.add Pos.succ];
        rewrite Hb by lia).
  rewrite while_loop_step. reflexivity.
Qed.

(** The comparison with the player's position never holds: the two masks
    built from it are never set, and the row written back after a collision
    check is the row itself. *)
Lemma touches_never (px py : Z) (x : entity) : touches px py x = false.
Proof. reflexivity. Qed.

Lemma gold_hit_never (px py : Z) (x : entity) : gold_hit px py x = false.
Proof. reflexivity. Qed.

Lemma enemy_hit_never (px py : Z) (x : entity) : enemy_hit px py x = false.
Proof. reflexivity. Qed.

Lemma collect_same (px py : Z) (x : entity) : collect px py x = x.
Proof.
  destruct x. unfold collect, scale. rewrite gold_hit_never.
  cbn [e_x e_y e_lr e_gold e_filled Z.b2z]. f_equal; lia.
Qed.

(** What [update_entities] makes of a row is the position update of the
    second loop, wherever the player is. *)
Lemma entity_step_advance (px py : Z) (x : entity) :
  entity_step px py x = advance x.
Proof. unfold entity_step. rewrite !collect_same. reflexivity. Qed.

Lemma update_entities_done (s : state) : (update_entities s).2 = false.
Proof.
  destruct (update_entities_spec s) as (_ & _ & ->). apply enemy_hit_never.
Qed.

Lemma step_done (r : rng) (p : params) (s : state) (action : Z) :
  out_done (step r p s action)
  = (update_entities (player_phase (spawn_phase r s) action)).2.
Proof.
  unfold step. destruct (update_entities _) as [[s1 reward] done].
  reflexivity.
Qed.

(** C1 (the code moves the entities on every step). The table that
    [update_entities] returns does not depend on [move_timer]; on the
    sample state, whose [move_timer] is 3, the enemy of slot 1 goes from
    column 4 to column 5, in [update_entities] and in the whole step. *)
Theorem movement_ignores_move_timer :
  (forall (s : state) (v : Z) (j : nat),
      entities (update_entities (set_move_timer s v)).1.1 !! j
      = entities (update_entities s).1.1 !! j)
  /\ move_timer off_tick_state = 3
  /\ row (entities off_tick_state) 1 = enemy_at 4 2 1
  /\ row (entities (update_entities off_tick_state).1.1) 1 = enemy_at 5 2 1
  /\ row (entities (out_state (step sample_rng params_asterix
                                    off_tick_state 3))) 1 = enemy_at 5 2 1.
Proof.
  split.
  - intros s v j.
    destruct (update_entities_spec (set_move_timer s v)) as (_ & -> & _).
    destruct (update_entities_spec s) as (_ & -> & _).
    reflexivity.
  - repeat split; vm_compute; reflexivity.
Qed.

(** C2 (the code never raises [done]). The contact test compares a slice
    of the entity array with a Python list, which is false whatever the two
    hold; so [update_entities] returns [done = false] for every state, and
    [step] does for every draw, parameter set, state and action. On the
    sample state the player steps up onto the cell of the active enemy of
    slot 1: after the player's move both coordinates agree, the enemy's
    [filled] flag is 1 and its gold flag is 0, and the step returns
    [done = false]. *)
Theorem done_never_raised :
  (forall s : state, (update_entities s).2 = false)
  /\ (forall (r : rng) (p : params) (s : state) (action : Z),
         out_done (step r p s action) = false)
  /\ (let s := player_phase (spawn_phase sample_rng contact_state) 1 in
      e_x (row (entities s) 1) = player_x s
      /\ e_y (row (entities s) 1) = player_y s
      /\ e_filled (row (entities s) 1) = 1
      /\ e_gold (row (entities s) 1) = 0)
  /\ out_done (step sample_rng params_asterix contact_state 1) = false.
Proof.
  split; [exact update_entities_done|].
  split; [intros r p s action; rewrite step_done; apply update_entities_done|].
  split; [repeat split|]; vm_compute; reflexivity.
Qed.

(** C3 (a failed spawn overwrites slot 7). With all eight slots active and
    the spawn timer due, the search ends at slot 7 with the free flag 0 and
    the record built from it is written there: the spawn phase replaces the
    active enemy of slot 7 by an inactive row, and after the whole step
    slot 7 is inactive. The spawn timer is reset to [spawn_speed]. *)
Theorem saturated_spawn_overwrites :
  Forall (fun x => e_filled x <> 0) (entities full_state)
  /\ spawn_timer full_state = 0
  /\ spawn_entity sample_rng full_state = (Entity 0 8 1 0 0, 7)
  /\ row (entities full_state) 7 = enemy_at 3 8 1
  /\ row (entities (spawn_phase sample_rng full_state)) 7 = Entity 0 8 1 0 0
  /\ e_filled (row (entities (out_state (step sample_rng params_asterix
                                              full_state 1))) 7) = 0
  /\ spawn_timer (spawn_phase sample_rng full_state)
     = spawn_speed full_state.
Proof.
  split.
  - unfold full_state, enemy_at. cbn [entities].
    repeat constructor; cbn [e_filled]; lia.
  - repeat split; vm_compute; reflexivity.
Qed.

(** C4 (the drawn permutation is not used). The search gives the same
    result for any two draws; with the permutation 3, 1, 2, 0, ... and an
    empty table it selects slot 1, not slot 3; and when slots 1..7 are
    active it fails although slot 0 is free, and the spawn phase then
    overwrites the active enemy of slot 7 by an inactive row. *)
Theorem search_ignores_permutation :
  (forall (r r' : rng) (occ : list Z),
      while_sample_slots r occ = while_sample_slots r' occ)
  /\ draw_order sample_rng = [3; 1; 2; 0; 4; 5; 6; 7]
  /\ while_sample_slots sample_rng [0; 0; 0; 0; 0; 0; 0; 0] = (1, 1)
  /\ while_sample_slots sample_rng [0; 1; 1; 1; 1; 1; 1; 1] = (7, 0)
  /\ row (entities crowded_state) 7 = enemy_at 3 8 1
  /\ row (entities (spawn_phase sample_rng crowded_state)) 7
     = Entity 0 8 1 0 0.
Proof.
  split; [reflexivity|].
  repeat split; vm_compute; reflexivity.
Qed.

(** C5 (the retirement is overwritten). On a move-tick step the enemy of
    slot 3, at column 9 and moving right, ends the step active at column
    10: the row of zeros written for leaving the frame is replaced, in the
    same iteration, by the moved row. *)
Theorem out_of_frame_entity_stays :
  move_timer move_tick_state = 0
  /\ row (entities move_tick_state) 3 = enemy_at 9 4 1
  /\ row (entities (update_entities move_tick_state).1.1) 3 = enemy_at 10 4 1
  /\ row (entities (out_state (step sample_rng params_asterix
                                    move_tick_state 3))) 3 = enemy_at 10 4 1.
Proof. repeat split; vm_compute; reflexivity. Qed.

(** ** Reading the observation array after a write *)

Lemma get3_set3 (a : list (list (list bool))) (i j k : nat) (v : bool)
      (r c ch : nat) :
  get3 (set3 a i j k v) r c ch
  = if bool_decide (r = i /\ c = j /\ ch = k) && inb a i j k
    then v else get3 a r c ch.
Proof.
  unfold get3, set3, inb. rewrite list_lookup_alter.
  destruct (decide (i = r)) as [->|Hi].
  - destruct (a !! r) as [plane|]; simpl.
    + rewrite list_lookup_alter.
      destruct (decide (j = c)) as [->|Hj].
      * destruct (plane !! c) as [cell|]; simpl.
        -- rewrite list_lookup_insert.
           destruct (decide (k = ch /\ (k < length cell)%nat)) as [[-> Hk]|Hn].
           ++ rewrite bool_decide_eq_true_2 by tauto.
              rewrite bool_decide_eq_true_2 by exact Hk. reflexivity.
           ++ destruct (bool_decide (r = r /\ c = c /\ ch = k)) eqn:E1;
                [|reflexivity].
              destruct (bool_decide (k < length cell)%nat) eqn:E2;
                [|reflexivity].
              apply bool_decide_eq_true_1 in E1, E2. exfalso.
              apply Hn. split; [symmetry; tauto|exact E2].
        -- rewrite andb_false_r. reflexivity.
      * rewrite bool_decide_eq_false_2 by (intros (_ & E & _); congruence).
        reflexivity.
    + rewrite andb_false_r. reflexivity.
  - rewrite bool_decide_eq_false_2 by (intros (E & _); congruence).
    reflexivity.
Qed.

Lemma inb_set3 (a : list (list (list bool))) (i j k : nat) (v : bool)
      (r c ch : nat) :
  inb (set3 a i j k v) r c ch = inb a r c ch.
Proof.
  unfold set3, inb. rewrite list_lookup_alter.
  destruct (decide (i = r)) as [->|Hi]; [|reflexivity].
  destruct (a !! r) as [plane|]; simpl; [|reflexivity].
  rewrite list_lookup_alter.
  destruct (decide (j = c)) as [->|Hj]; [|reflexivity].
  destruct (plane !! c) as [cell|]; simpl; [|reflexivity].
  rewrite length_insert. reflexivity.
Qed.

Lemma inb_index_update3 (a : list (list (list bool))) (i j k : Z) (v : bool)
      (r c ch : nat) :
  inb (index_update3 a i j k v) r c ch = inb a r c ch.
Proof.
  unfold index_update3.
  destruct (norm_index 10 i), (norm_index 10 j), (norm_index 5 k);
    try reflexivity.
  apply inb_set3.
Qed.

Lemma full_shape_zeros : full_shape (zeros3 10 10 5).
Proof.
  intros r c ch Hr Hc Hch. unfold inb, zeros3.
  rewrite lookup_replicate_2 by exact Hr.
  rewrite lookup_replicate_2 by exact Hc.
  rewrite length_replicate. apply bool_decide_eq_true_2. exact Hch.
Qed.

Lemma full_shape_index_update3 (a : list (list (list bool))) (i j k : Z)
      (v : bool) :
  full_shape a -> full_shape (index_update3 a i j k v).
Proof.
  intros Ha r c ch Hr Hc Hch. rewrite inb_index_update3. auto.
Qed.

Lemma norm_index_lt (size i : Z) (n : nat) :
  norm_index size i = Some n -> (Z.of_nat n < size).
Proof.
  unfold norm_index.
  destruct (i <? 0);
    match goal with
    | |- context [(0 <=? ?j) && (?j <? size)] =>
        destruct (Z.leb_spec 0 j), (Z.ltb_spec j size)
    end; simpl; intros [= <-]; lia.
Qed.

Lemma get3_index_update3 (a : list (list (list bool))) (i j k : Z)
      (v : bool) (r c ch : nat) :
  full_shape a ->
  get3 (index_update3 a i j k v) r c ch
  = if target i j k r c ch then v else get3 a r c ch.
Proof.
  intros Ha. unfold index_update3, target.
  destruct (norm_index 10 i) as [i'|] eqn:Ei; [|reflexivity].
  destruct (norm_index 10 j) as [j'|] eqn:Ej; [|reflexivity].
  destruct (norm_index 5 k) as [k'|] eqn:Ek; [|reflexivity].
  rewrite get3_set3.
  apply norm_index_lt in Ei, Ej, Ek.
  rewrite (Ha i' j' k') by lia. rewrite andb_true_r. reflexivity.
Qed.

Lemma get3_visible (a : list (list (list bool))) (r c ch : nat) :
  get3 (visible a) r c ch = if decide (ch < 4)%nat then get3 a r c ch else false.
Proof.
  unfold get3, visible. rewrite list_lookup_fmap.
  destruct (a !! r) as [plane|]; simpl; [|destruct (decide _); reflexivity].
  rewrite list_lookup_fmap.
  destruct (plane !! c) as [cell|]; simpl; [|destruct (decide _); reflexivity].
  rewrite lookup_take. destruct (decide (ch < 4)%nat); reflexivity.
Qed.

(** ** The observation, cell by cell *)

Lemma get3_index_update3_any (a : list (list (list bool))) (i j k : Z)
      (v : bool) (r c ch : nat) :
  get3 (index_update3 a i j k v) r c ch
  = if target i j k r c ch && inb a r c ch then v else get3 a r c ch.
Proof.
  unfold index_update3, target.
  destruct (norm_index 10 i) as [i'|]; [|reflexivity].
  destruct (norm_index 10 j) as [j'|]; [|reflexivity].
  destruct (norm_index 5 k) as [k'|]; [|reflexivity].
  rewrite get3_set3.
  destruct (bool_decide_reflect (r = i' /\ c = j' /\ ch = k'))
    as [(-> & -> & ->)|]; reflexivity.
Qed.

Lemma target_channel (i j k : Z) (r c ch : nat) :
  target i j k r c ch = true -> norm_index 5 k = Some ch.
Proof.
  unfold target.
  destruct (norm_index 10 i), (norm_index 10 j), (norm_index 5 k);
    try discriminate.
  intros (_ & _ & ->)%bool_decide_eq_true_1. reflexivity.
Qed.

Lemma norm_index_in_range (size i : Z) :
  0 <= i < size -> norm_index size i = Some (Z.to_nat i).
Proof.
  intros Hi. unfold norm_index.
  destruct (Z.ltb_spec i 0); [lia|].
  destruct (Z.leb_spec 0 i); [|lia].
  destruct (Z.ltb_spec i size); [reflexivity|lia].
Qed.

Lemma target_cell (i j k : Z) (r c ch : nat) :
  0 <= i -> 0 <= j -> 0 <= k ->
  bool_decide (r = Z.to_nat i /\ c = Z.to_nat j /\ ch = Z.to_nat k)
  = (i =? Z.of_nat r) && (j =? Z.of_nat c) && (k =? Z.of_nat ch).
Proof.
  intros Hi Hj Hk.
  destruct (Z.eqb_spec i (Z.of_nat r)), (Z.eqb_spec j (Z.of_nat c)),
    (Z.eqb_spec k (Z.of_nat ch)); cbn [andb];
    (apply bool_decide_eq_true_2; lia)
    || (apply bool_decide_eq_false_2; lia).
Qed.

Lemma target_in_grid (i j k : Z) (r c ch : nat) :
  0 <= i <= 9 -> 0 <= j <= 9 -> 0 <= k <= 4 ->
  target i j k r c ch
  = (i =? Z.of_nat r) && (j =? Z.of_nat c) && (k =? Z.of_nat ch).
Proof.
  intros Hi Hj Hk. unfold target.
  rewrite (norm_index_in_range 10 i), (norm_index_in_range 10 j),
    (norm_index_in_range 5 k) by lia.
  apply target_cell; lia.
Qed.

Lemma target_wrap (i k : Z) (r c ch : nat) :
  0 <= i <= 9 -> 0 <= k <= 4 ->
  target i (-1) k r c ch
  = (i =? Z.of_nat r) && (9 =? Z.of_nat c) && (k =? Z.of_nat ch).
Proof.
  intros Hi Hk. unfold target.
  rewrite (norm_index_in_range 10 i), (norm_index_in_range 5 k) by lia.
  change (norm_index 10 (-1)) with (Some (Z.to_nat 9)).
  apply target_cell; lia.
Qed.

Lemma target_beyond (i k : Z) (r c ch : nat) :
  target i 10 k r c ch = false.
Proof.
  unfold target. destruct (norm_index 10 i); reflexivity.
Qed.

Ltac cases_prune :=
  repeat (match goal with
          | |- context [Z.eqb ?a ?b] => destruct (Z.eqb_spec a b)
          | |- context [Z.leb ?a ?b] => destruct (Z.leb_spec a b)
          | |- context [Z.ltb ?a ?b] => destruct (Z.ltb_spec a b)
          end; try lia; cbn [andb orb negb]).

(** An inactive row is rendered into the fifth channel only. *)
Lemma render_inactive (obs : list (list (list bool))) (x : entity)
      (r c ch : nat) :
  e_filled x = 0 -> (ch < 4)%nat ->
  get3 (render_entity obs x) r c ch = get3 obs r c ch.
Proof.
  intros Hf Hch.
  assert (Hk : forall i j, target i j 4 r c ch = false).
  { intros i j. destruct (target i j 4 r c ch) eqn:E; [|reflexivity].
    apply target_channel in E. cbv in E. injection E as <-. lia. }
  unfold render_entity. cbv zeta. rewrite Hf.
  replace (2 * 0 + 4 * (1 - 0)) with 4 by reflexivity.
  replace ((3 * e_gold x + 1 * (1 - e_gold x)) * 0 + 4 * (1 - 0)) with 4
    by lia.
  rewrite !get3_index_update3_any, !Hk. reflexivity.
Qed.

Lemma get3_render_entity (obs : list (list (list bool))) (x : entity)
      (r c ch : nat) :
  full_shape obs ->
  get3 (render_entity obs x) r c ch
  = if target (e_y x) (back_x x) (2 * e_filled x + 4 * (1 - e_filled x))
              r c ch
    then (0 <=? back_x x) && (back_x x <=? 9)
    else if target (e_y x) (e_x x)
                   ((3 * e_gold x + 1 * (1 - e_gold x)) * e_filled x
                    + 4 * (1 - e_filled x)) r c ch
         then true
         else get3 obs r c ch.
Proof.
  intros Hobs. unfold render_entity. cbv zeta.
  rewrite get3_index_update3 by (apply full_shape_index_update3; exact Hobs).
  rewrite get3_index_update3 by exact Hobs. reflexivity.
Qed.

Lemma render_active (obs : list (list (list bool))) (x : entity)
      (r c ch : nat) :
  full_shape obs ->
  e_filled x = 1 ->
  e_lr x = 0 \/ e_lr x = 1 ->
  e_gold x = 0 \/ e_gold x = 1 ->
  0 <= e_x x <= 9 -> 0 <= e_y x <= 9 ->
  get3 (render_entity obs x) r c ch
  = if cancels x r c ch then false
    else get3 obs r c ch || entity_sets x r c ch.
Proof.
  intros Hobs Hf Hlr Hg Hx Hy. rewrite get3_render_entity by exact Hobs.
  unfold cancels, entity_sets, primary_channel. rewrite Hf.
  replace (2 * 1 + 4 * (1 - 1)) with 2 by reflexivity.
  change (negb (1 =? 0)) with true. cbn [andb].
  assert (Hb : back_x x = e_x x - 1 /\ e_lr x = 1
               \/ back_x x = e_x x + 1 /\ e_lr x = 0).
  { unfold back_x. destruct Hlr as [-> | ->]; [right|left]; lia. }
  destruct (get3 obs r c ch);
    destruct Hg as [-> | ->];
    [replace ((3 * 0 + 1 * (1 - 0)) * 1 + 4 * (1 - 1)) with 1 by reflexivity
    |replace ((3 * 1 + 1 * (1 - 1)) * 1 + 4 * (1 - 1)) with 3 by reflexivity
    |replace ((3 * 0 + 1 * (1 - 0)) * 1 + 4 * (1 - 1)) with 1 by reflexivity
    |replace ((3 * 1 + 1 * (1 - 1)) * 1 + 4 * (1 - 1)) with 3 by reflexivity];
    rewrite (target_in_grid (e_y x) (e_x x)) by lia;
    destruct Hb as [[-> _] | [-> _]];
    try (destruct (Z.eq_dec (e_x x) 0) as [E0|N0];
         [rewrite E0; change (0 - 1) with (-1); rewrite target_wrap by lia
         |rewrite target_in_grid by lia]);
    try (destruct (Z.eq_dec (e_x x) 9) as [E9|N9];
         [rewrite E9; change (9 + 1) with 10; rewrite target_beyond
         |rewrite target_in_grid by lia]);
    try change (0 =? 0) with true; try change (1 =? 0) with false;
    cbv iota; cases_prune; try reflexivity; lia.
Qed.

Lemma full_shape_render_entity (obs : list (list (list bool))) (x : entity) :
  full_shape obs -> full_shape (render_entity obs x).
Proof.
  intros Hobs. unfold render_entity. cbv zeta.
  apply full_shape_index_update3, full_shape_index_update3, Hobs.
Qed.

Lemma entity_sets_inactive (x : entity) (r c ch : nat) :
  e_filled x = 0 -> entity_sets x r c ch = false.
Proof. intros Hf. unfold entity_sets. rewrite Hf. reflexivity. Qed.

(** Rendering a list of rows none of which cancels the cell: the cell is
    the disjunction of what it held and of what the rows set. *)
Lemma fold_render_or (l : list entity) (r c ch : nat) :
  (ch < 4)%nat ->
  forall obs : list (list (list bool)),
    full_shape obs -> Forall entity_ok l ->
    forallb (fun x => (e_filled x =? 0) || negb (cancels x r c ch)) l = true ->
    get3 (fold_left render_entity l obs) r c ch
    = get3 obs r c ch || existsb (fun x => entity_sets x r c ch) l.
Proof.
  intros Hch. induction l as [|x l IH]; intros obs Hobs Hok Hunc.
  - cbn [fold_left existsb]. rewrite orb_false_r. reflexivity.
  - cbn [fold_left existsb]. cbn [forallb] in Hunc.
    apply andb_prop in Hunc as [Hx0 Hunc].
    apply Forall_cons in Hok as [Hx Hok].
    assert (Hstep : get3 (render_entity obs x) r c ch
                    = get3 obs r c ch || entity_sets x r c ch).
    { destruct Hx as [Hf | (Hf & Hlr & Hg & Hxx & Hxy)].
      - rewrite render_inactive, entity_sets_inactive by assumption.
        rewrite orb_false_r. reflexivity.
      - rewrite render_active by assumption.
        rewrite Hf in Hx0. change (1 =? 0) with false in Hx0.
        cbn [orb] in Hx0. apply negb_true_iff in Hx0. rewrite Hx0.
        reflexivity. }
    rewrite IH; try assumption.
    + rewrite Hstep, orb_assoc. reflexivity.
    + apply full_shape_render_entity. exact Hobs.
Qed.

Lemma get3_zeros3 (d0 d1 d2 r c ch : nat) :
  get3 (zeros3 d0 d1 d2) r c ch = false.
Proof.
  unfold get3, zeros3.
  destruct (replicate d0 _ !! r) as [plane|] eqn:Ep; [|reflexivity].
  apply lookup_replicate in Ep as [-> _].
  destruct (replicate d1 _ !! c) as [cell|] eqn:Ec; [|reflexivity].
  apply lookup_replicate in Ec as [-> _].
  destruct (replicate d2 false !! ch) as [b|] eqn:Eb; [|reflexivity].
  apply lookup_replicate in Eb as [-> _]. reflexivity.
Qed.

(** The observation before the loop over the entities. *)
Lemma get3_player (s : state) (r c ch : nat) :
  0 <= player_x s <= 9 -> 0 <= player_y s <= 9 ->
  get3 (index_update3 (zeros3 10 10 5) (player_y s) (player_x s) 0 true)
       r c ch
  = player_sets s r c ch.
Proof.
  intros Hx Hy. rewrite get3_index_update3 by apply full_shape_zeros.
  rewrite target_in_grid by lia. rewrite get3_zeros3.
  unfold player_sets. rewrite (Z.eqb_sym 0).
  destruct (_ && _ && _); reflexivity.
Qed.

Lemma run_reachable (p : params) (inputs : list (rng * Z)) :
  forall s : state, reachable p s -> reachable p (run p s inputs).
Proof.
  induction inputs as [|[r action] rest IH]; intros s Hs; cbn [run].
  - exact Hs.
  - apply IH. apply reachable_step. exact Hs.
Qed.

(** C8 (the writes of [get_obs] are not combined by OR). The trail write
    stores the value [leave_trail] at the trailing column, and a negative
    column addresses the array from its far end. On a state of the data
    model with two active entities on row 2, the entity of slot 1 (column
    8, moving left) sets the trail cell of column 9: with that entity alone
    the cell is true. The entity of slot 2 (column 0, moving right,
    trailing column -1) then stores [false] in the same cell, and the cell
    is false in the observation although a writer sets it. After twenty
    steps of a game the enemy of slot 1 is active at column -1 of row 2:
    no writer sets the cell of column 9 of that row in the enemy channel,
    and the cell is true in the observation. *)
Theorem trail_write_clears_cell :
  in_grid shared_row_state
  /\ entity_sets (row (entities shared_row_state) 1) 2 9 2 = true
  /\ some_writer_sets shared_row_state 2 9 2 = true
  /\ get3 (get_obs single_row_state) 2 9 2 = true
  /\ get3 (get_obs shared_row_state) 2 9 2 = false
  /\ reachable params_asterix twenty_steps_state
  /\ row (entities twenty_steps_state) 1 = enemy_at (-1) 2 0
  /\ some_writer_sets twenty_steps_state 2 9 1 = false
  /\ get3 (get_obs twenty_steps_state) 2 9 1 = true.
Proof.
  split.
  { unfold in_grid, shared_row_state. cbn [player_x player_y entities].
    split; [lia|]. split; [lia|].
    repeat (apply Forall_cons; split); try apply Forall_nil;
      unfold entity_ok; cbn [e_filled e_lr e_gold e_x e_y zero_entity]; lia. }
  do 4 (split; [vm_compute; reflexivity|]).
  split.
  { apply run_reachable. apply (reachable_reset params_asterix left_rng). }
  repeat split; vm_compute; reflexivity.
Qed.

(** ** The free-slot search, in full *)

Lemma while_loop_finds (occ : list Z) (n : nat) :
  forall j k : Z,
    Z.to_nat (k - j - 1) = n -> 0 <= j < k -> k <= 7 ->
    (forall i, j < i < k -> gather occ i <> 0) ->
    gather occ k = 0 ->
    while_loop occ (j, 0) = (k, 1).
Proof.
  induction n as [|n IH]; intros j k Hn Hj Hk Hocc Hfree.
  - assert (k = j + 1) by lia. subst k.
    rewrite while_loop_step. unfold condition_to_check, update. cbn [fst snd].
    destruct (Z.ltb_spec j 7); [|lia].
    change (0 =? 0) with true. cbn [andb].
    rewrite Hfree. change (0 =? 0) with true. cbn [Z.b2z].
    rewrite while_loop_step. unfold condition_to_check. cbn [fst snd].
    change (1 =? 0) with false. rewrite andb_false_r. reflexivity.
  - rewrite while_loop_step. unfold condition_to_check, update. cbn [fst snd].
    destruct (Z.ltb_spec j 7); [|lia].
    change (0 =? 0) with true. cbn [andb].
    destruct (Z.eqb_spec (gather occ (j + 1)) 0) as [E|_].
    + exfalso. apply (Hocc (j + 1)); [lia|exact E].
    + cbn [Z.b2z]. apply IH; try lia. intros i Hi. apply Hocc. lia.
Qed.

Lemma search_finds (r : rng) (occ : list Z) (k : Z) :
  1 <= k <= 7 -> gather occ k = 0 ->
  (forall i, 1 <= i < k -> gather occ i <> 0) ->
  while_sample_slots r occ = (k, 1).
Proof.
  intros Hk Hfree Hocc. unfold while_sample_slots.
  apply (while_loop_finds occ (Z.to_nat (k - 0 - 1)));
    try lia; try exact Hfree.
  intros i Hi. apply Hocc. lia.
Qed.

(** X1. The search returns the lowest index among 1..7 whose slot is free,
    with the free flag 1; when the slots 1..7 are all occupied it returns
    slot 7 with the free flag 0. *)
Theorem free_slot_search (r : rng) (occ : list Z) :
  (forall k : Z,
      1 <= k <= 7 -> gather occ k = 0 ->
      (forall i, 1 <= i < k -> gather occ i <> 0) ->
      while_sample_slots r occ = (k, 1))
  /\ ((forall i, 1 <= i <= 7 -> gather occ i <> 0) ->
      while_sample_slots r occ = (7, 0)).
Proof.
  split.
  - intros k. apply search_finds.
  - apply saturated_search.
Qed.

Lemma free_slot_search_witness :
  while_sample_slots sample_rng [0; 1; 1; 0; 1; 0; 0; 0] = (3, 1).
Proof.
  apply (proj1 (free_slot_search sample_rng [0; 1; 1; 0; 1; 0; 0; 0]) 3).
  - lia.
  - reflexivity.
  - intros i Hi. assert (Hc : i = 1 \/ i = 2) by lia.
    destruct Hc as [-> | ->]; vm_compute; discriminate.
Defined.

(** ** The spawn phase, case by case *)

Lemma gather_filled (t : list entity) (i : Z) :
  0 <= i < Z.of_nat (length t) ->
  gather (e_filled <$> t) i = e_filled (row t (Z.to_nat i)).
Proof.
  intros Hi. unfold gather, row. rewrite length_fmap.
  destruct (Z.ltb_spec i 0); [lia|].
  replace (Z.max 0 (Z.min (Z.of_nat (length t) - 1) i)) with i by lia.
  rewrite list_lookup_fmap. destruct (t !! Z.to_nat i); reflexivity.
Qed.

Lemma mask_entity_left (x y : entity) :
  add_entity (scale 1 x) (scale 0 y) = x.
Proof.
  destruct x, y. unfold add_entity, scale. cbn [e_x e_y e_lr e_gold e_filled].
  f_equal; lia.
Qed.

Lemma mask_entity_right (x y : entity) :
  add_entity (scale 0 x) (scale 1 y) = y.
Proof.
  destruct x, y. unfold add_entity, scale. cbn [e_x e_y e_lr e_gold e_filled].
  f_equal; lia.
Qed.

Lemma mask_entity_none (x y : entity) :
  add_entity (scale 0 x) (scale 0 y) = zero_entity.
Proof.
  destruct x, y. unfold add_entity, scale, zero_entity.
  cbn [e_x e_y e_lr e_gold e_filled]. f_equal; lia.
Qed.

Lemma table_mask (b1 b2 : Z) (t u : list entity) (v : entity -> entity -> entity) :
  length t = length u ->
  (forall x y, add_entity (scale b1 x) (scale b2 y) = v x y) ->
  table_add (table_scale b1 t) (table_scale b2 u) = zip_with v t u.
Proof.
  intros Hlen Hv. unfold table_add, table_scale.
  apply list_eq. intros i. rewrite !lookup_zip_with, !list_lookup_fmap.
  destruct (t !! i), (u !! i); simpl; try reflexivity.
  rewrite Hv. reflexivity.
Qed.

Lemma zip_with_fst_same_length (t u : list entity) :
  length t = length u -> zip_with (fun x _ => x) t u = t.
Proof.
  revert u. induction t as [|x t IH]; intros [|y u] Hlen;
    simpl in *; try reflexivity; try discriminate.
  f_equal. apply IH. lia.
Qed.

Lemma zip_with_snd_same_length (t u : list entity) :
  length t = length u -> zip_with (fun _ y => y) t u = u.
Proof.
  revert u. induction t as [|x t IH]; intros [|y u] Hlen;
    simpl in *; try reflexivity; try discriminate.
  f_equal. apply IH. lia.
Qed.

Lemma zip_with_const_same_length (t u : list entity) (z : entity) :
  length t = length u ->
  zip_with (fun _ _ => z) t u = replicate (length u) z.
Proof.
  revert u. induction t as [|x t IH]; intros [|y u] Hlen;
    simpl in *; try reflexivity; try discriminate.
  f_equal. apply IH. lia.
Qed.

Lemma length_index_update_row (t : list entity) (slot : Z) (x : entity) :
  length (index_update_row t slot x) = length t.
Proof.
  unfold index_update_row. destruct (norm_index _ slot); [|reflexivity].
  apply length_insert.
Qed.

Lemma index_update_row_in_range (t : list entity) (slot : Z) (x : entity) :
  0 <= slot < Z.of_nat (length t) ->
  index_update_row t slot x = <[Z.to_nat slot := x]> t.
Proof.
  intros Hs. unfold index_update_row.
  rewrite norm_index_in_range by exact Hs. reflexivity.
Qed.

Lemma spawn_phase_due (r : rng) (s : state) :
  spawn_timer s = 0 ->
  entities (spawn_phase r s)
  = index_update_row (entities s) (spawn_entity r s).2 (spawn_entity r s).1
  /\ spawn_timer (spawn_phase r s) = spawn_speed s.
Proof.
  intros Ht. rewrite spawn_phase_entities, spawn_phase_spawn_timer, Ht.
  change (0 =? 0) with true. change (0 >? 0) with false. cbn [Z.b2z].
  split; [|lia].
  rewrite (table_mask 1 0 _ _ (fun x _ => x)).
  - apply zip_with_fst_same_length, length_index_update_row.
  - apply length_index_update_row.
  - apply mask_entity_left.
Qed.

Lemma spawn_phase_waiting (r : rng) (s : state) :
  spawn_timer s > 0 ->
  entities (spawn_phase r s) = entities s
  /\ spawn_timer (spawn_phase r s) = spawn_timer s.
Proof.
  intros Ht. rewrite spawn_phase_entities, spawn_phase_spawn_timer.
  destruct (Z.eqb_spec (spawn_timer s) 0); [lia|].
  rewrite Z.gtb_ltb. destruct (Z.ltb_spec 0 (spawn_timer s)); [|lia].
  cbn [Z.b2z]. split; [|lia].
  rewrite (table_mask 0 1 _ _ (fun _ y => y)).
  - apply zip_with_snd_same_length, length_index_update_row.
  - apply length_index_update_row.
  - apply mask_entity_right.
Qed.

Lemma spawn_phase_negative (r : rng) (s : state) :
  spawn_timer s < 0 ->
  entities (spawn_phase r s) = replicate (length (entities s)) zero_entity
  /\ spawn_timer (spawn_phase r s) = 0.
Proof.
  intros Ht. rewrite spawn_phase_entities, spawn_phase_spawn_timer.
  destruct (Z.eqb_spec (spawn_timer s) 0); [lia|].
  rewrite Z.gtb_ltb. destruct (Z.ltb_spec 0 (spawn_timer s)); [lia|].
  cbn [Z.b2z]. split; [|lia].
  rewrite (table_mask 0 0 _ _ (fun _ _ => zero_entity)).
  - apply zip_with_const_same_length, length_index_update_row.
  - apply length_index_update_row.
  - apply mask_entity_none.
Qed.

(** X2. When the spawn timer is due and, on a table of eight rows, [k] is
    the lowest free slot among 1..7, the spawn phase writes the new entity
    into slot [k] and changes no other row: the entity is on row [k + 1],
    at column 0 for the direction draw 1 and column 9 for the draw 0, with
    the drawn direction and gold bits, and active. The spawn timer is set
    to [spawn_speed]. *)
Theorem spawn_fills_first_free (r : rng) (s : state) (k : Z) :
  length (entities s) = 8%nat ->
  spawn_timer s = 0 ->
  1 <= k <= 7 ->
  e_filled (row (entities s) (Z.to_nat k)) = 0 ->
  (forall i, 1 <= i < k -> e_filled (row (entities s) (Z.to_nat i)) <> 0) ->
  entities (spawn_phase r s)
  = <[Z.to_nat k := Entity ((1 - draw_lr r) * 9) (k + 1) (draw_lr r)
                           (draw_gold r) 1]> (entities s)
  /\ spawn_timer (spawn_phase r s) = spawn_speed s.
Proof.
  intros Hlen Ht Hk Hfree Hocc.
  destruct (spawn_phase_due r s Ht) as [-> ->]. split; [|reflexivity].
  destruct (spawn_entity_slot r s) as [-> ->].
  rewrite (search_finds r (e_filled <$> entities s) k).
  - cbn [fst snd]. apply index_update_row_in_range. lia.
  - exact Hk.
  - rewrite gather_filled by lia. exact Hfree.
  - intros i Hi. rewrite gather_filled by lia. apply Hocc. exact Hi.
Qed.

Lemma spawn_fills_first_free_witness :
  entities (spawn_phase sample_rng (set_spawn_timer contact_state 0))
  = <[2%nat := Entity 0 3 1 0 1]> (entities contact_state)
  /\ spawn_timer (spawn_phase sample_rng (set_spawn_timer contact_state 0))
     = 10.
Proof.
  apply (spawn_fills_first_free sample_rng (set_spawn_timer contact_state 0)
           2).
  - reflexivity.
  - reflexivity.
  - lia.
  - reflexivity.
  - intros i Hi. assert (Hc : i = 1) by lia. subst i.
    vm_compute. discriminate.
Defined.

(** X3. The spawn phase does nothing while the spawn timer is positive: the
    table and the timer are returned as they were. With a negative timer it
    returns a table of zero rows of the same length and the timer 0. *)
Theorem spawn_gated (r : rng) (s : state) :
  (spawn_timer s > 0 ->
   entities (spawn_phase r s) = entities s
   /\ spawn_timer (spawn_phase r s) = spawn_timer s)
  /\ (spawn_timer s < 0 ->
      entities (spawn_phase r s)
      = replicate (length (entities s)) zero_entity
      /\ spawn_timer (spawn_phase r s) = 0).
Proof.
  split; [apply spawn_phase_waiting|apply spawn_phase_negative].
Qed.

Lemma spawn_gated_witness :
  entities (spawn_phase sample_rng contact_state) = entities contact_state
  /\ spawn_timer (spawn_phase sample_rng contact_state) = 4.
Proof.
  apply (proj1 (spawn_gated sample_rng contact_state)). simpl. lia.
Defined.

Lemma spawn_phase_same_draws (r r' : rng) (s : state) :
  draw_lr r = draw_lr r' -> draw_gold r = draw_gold r' ->
  spawn_phase r s = spawn_phase r' s.
Proof.
  intros Hlr Hg. unfold spawn_phase, spawn_entity, while_sample_slots.
  rewrite Hlr, Hg. reflexivity.
Qed.

Lemma spawn_phase_no_draw (r r' : rng) (s : state) :
  spawn_timer s <> 0 -> spawn_phase r s = spawn_phase r' s.
Proof.
  intros Ht.
  assert (E : entities (spawn_phase r s) = entities (spawn_phase r' s)
              /\ spawn_timer (spawn_phase r s)
                 = spawn_timer (spawn_phase r' s)).
  { destruct (Z.lt_trichotomy (spawn_timer s) 0) as [Hneg|[H0|Hpos]].
    - destruct (spawn_phase_negative r s Hneg) as [-> ->].
      destruct (spawn_phase_negative r' s Hneg) as [-> ->]. split; reflexivity.
    - contradiction.
    - destruct (spawn_phase_waiting r s) as [-> ->]; [lia|].
      destruct (spawn_phase_waiting r' s) as [-> ->]; [lia|].
      split; reflexivity. }
  destruct E as [E T].
  rewrite (spawn_phase_state r s), E, T. symmetry. apply spawn_phase_state.
Qed.

(** X4. The draws reach the result of [step] only through a spawn: on a
    step whose spawn timer is not 0 two different draws give the same
    result, and on any step so do two draws with the same direction and
    gold bits, whatever their permutations. *)
Theorem draws_matter_only_on_spawn (r r' : rng) (p : params) (s : state)
        (action : Z) :
  (spawn_timer s <> 0 -> step r p s action = step r' p s action)
  /\ (draw_lr r = draw_lr r' -> draw_gold r = draw_gold r' ->
      step r p s action = step r' p s action).
Proof.
  split.
  - intros Ht. unfold step. rewrite (spawn_phase_no_draw r r' s Ht).
    reflexivity.
  - intros Hlr Hg. unfold step.
    rewrite (spawn_phase_same_draws r r' s Hlr Hg). reflexivity.
Qed.

Lemma draws_matter_only_on_spawn_witness :
  step sample_rng params_asterix contact_state 1
  = step (Rng 0 1 [7; 6; 5; 4; 3; 2; 1; 0]) params_asterix contact_state 1.
Proof.
  apply (proj1 (draws_matter_only_on_spawn sample_rng
                  (Rng 0 1 [7; 6; 5; 4; 3; 2; 1; 0]) params_asterix
                  contact_state 1)).
  simpl. lia.
Defined.

(** ** The reward of a step *)

Lemma row_sum_ext (f g : entity -> Z) (t u : list entity) (l : list nat) :
  (forall i, i ∈ l -> f (row t i) = g (row u i)) ->
  row_sum f t l = row_sum g u l.
Proof.
  induction l as [|a l IH]; intros H; [reflexivity|].
  unfold row_sum in *. cbn [fold_right].
  rewrite (H a) by (apply elem_of_cons; left; reflexivity).
  rewrite IH; [reflexivity|].
  intros i Hi. apply H. apply elem_of_cons. right. exact Hi.
Qed.

Lemma row_sum_pair_bounds (f g : entity -> Z) (t : list entity)
      (l : list nat) :
  (forall x, 0 <= f x + g x <= 1) ->
  0 <= row_sum f t l + row_sum g t l <= Z.of_nat (length l).
Proof.
  intros H. induction l as [|a l IH]; [cbn; lia|].
  unfold row_sum in *. cbn [fold_right length].
  specialize (H (row t a)). lia.
Qed.

Section rowwise_reward.
Variable new_row : Z -> Z -> entity -> entity.
Variable gain : Z -> Z -> entity -> Z.
Variable verdict : Z -> Z -> entity -> bool.

Lemma rowwise_fold_reward (l : list nat) :
  NoDup l ->
  forall (s : state) (reward : Z) (done : bool),
    (fold_left (rowwise_body new_row gain verdict) l (s, reward, done)).1.2
    = reward + row_sum (gain (player_x s) (player_y s)) (entities s) l.
Proof.
  induction l as [|a l IH]; intros Hnd s reward done.
  - cbn. lia.
  - apply NoDup_cons in Hnd as [Hnotin Hnd].
    change (fold_left (rowwise_body new_row gain verdict) (a :: l)
                      (s, reward, done))
      with (fold_left (rowwise_body new_row gain verdict) l
              (rowwise_body new_row gain verdict (s, reward, done) a)).
    unfold rowwise_body at 2.
    set (s1 := set_entities s _).
    rewrite (IH Hnd s1).
    change (player_x s1) with (player_x s).
    change (player_y s1) with (player_y s).
    rewrite (row_sum_ext _ (gain (player_x s) (player_y s))
               (entities s1) (entities s) l).
    + unfold row_sum. cbn [fold_right]. lia.
    + intros i Hi. f_equal. unfold row. subst s1. cbn [entities set_entities].
      rewrite list_lookup_insert_ne; [reflexivity|].
      intros ->. contradiction.
Qed.

End rowwise_reward.

(** A row gives gold at most once in a call of [update_entities]. *)
Lemma gold_once (px py : Z) (x : entity) :
  0 <= Z.b2z (gold_hit px py x)
       + Z.b2z (gold_hit px py (advance (collect px py x))) <= 1.
Proof. rewrite !gold_hit_never. cbn [Z.b2z]. lia. Qed.

(** The reward of [update_entities] is the sum of the masks
    [collision_gold] of the rows 0..7, before and after their move. *)
Lemma update_entities_reward (s : state) :
  (update_entities s).1.2
  = row_sum (fun x => Z.b2z (gold_hit (player_x s) (player_y s) x))
            (entities s) (seq 0 8)
    + row_sum (fun x => Z.b2z (gold_hit (player_x s) (player_y s)
                                 (advance (collect (player_x s) (player_y s)
                                                   x))))
              (entities s) (seq 0 8).
Proof.
  unfold update_entities. cbv zeta.
  rewrite (fold_left_ext first_loop_body _ _ _ first_loop_rowwise).
  pose proof (rowwise_fold collect (fun px py x => Z.b2z (gold_hit px py x))
                enemy_hit (seq 0 8) (NoDup_seq 0 8) s 0 false)
    as (Hst1 & Hrows1 & _).
  pose proof (rowwise_fold_reward collect
                (fun px py x => Z.b2z (gold_hit px py x))
                enemy_hit (seq 0 8) (NoDup_seq 0 8) s 0 false) as Hrew1.
  destruct (fold_left _ (seq 0 8) (s, 0, false)) as [[s1 reward1] done1].
  cbn [fst snd] in Hst1, Hrows1, Hrew1.
  rewrite (fold_left_ext second_loop_body _ _ _ second_loop_rowwise).
  set (s2 := set_move_timer s1 _).
  rewrite (rowwise_fold_reward (fun px py x => collect px py (advance x))
             (fun px py x => Z.b2z (gold_hit px py (advance x)))
             (fun px py x => enemy_hit px py (advance x))
             (seq 0 8) (NoDup_seq 0 8) s2 reward1 done1).
  assert (Hp2 : player_x s2 = player_x s /\ player_y s2 = player_y s
                /\ entities s2 = entities s1).
  { subst s2. rewrite Hst1. repeat split. }
  destruct Hp2 as (-> & -> & ->).
  rewrite Hrew1. rewrite Z.add_0_l.
  rewrite (row_sum_ext
             (fun x => Z.b2z (gold_hit (player_x s) (player_y s) (advance x)))
             (fun x => Z.b2z (gold_hit (player_x s) (player_y s)
                           (advance (collect (player_x s) (player_y s) x))))
             (entities s1) (entities s) (seq 0 8)); [reflexivity|].
  intros i Hi. cbv beta.
  assert (Hrow : row (entities s1) i
                 = collect (player_x s) (player_y s) (row (entities s) i)).
  { apply (row_fmap (entities s)); [apply collect_zero|].
    rewrite Hrows1, decide_True by exact Hi. reflexivity. }
  rewrite Hrow. reflexivity.
Qed.

Lemma step_reward (r : rng) (p : params) (s : state) (action : Z) :
  out_reward (step r p s action)
  = (update_entities (player_phase (spawn_phase r s) action)).1.2.
Proof.
  unfold step. destruct (update_entities _) as [[s1 reward] done].
  reflexivity.
Qed.

(** X5. The reward of a step is between 0 and 8: each of the eight rows
    gives gold at most once, before or after its move. *)
Theorem reward_bounds (r : rng) (p : params) (s : state) (action : Z) :
  0 <= out_reward (step r p s action) <= 8.
Proof.
  rewrite step_reward, update_entities_reward.
  apply (row_sum_pair_bounds _ _ _ (seq 0 8)).
  intros x. apply gold_once.
Qed.

Lemma row_sum_zero (f : entity -> Z) (t : list entity) (l : list nat) :
  (forall x, f x = 0) -> row_sum f t l = 0.
Proof.
  intros H. induction l as [|a l IH]; [reflexivity|].
  unfold row_sum in *. cbn [fold_right]. rewrite H, IH. reflexivity.
Qed.

Lemma update_entities_no_reward (s : state) : (update_entities s).1.2 = 0.
Proof.
  rewrite update_entities_reward.
  rewrite !row_sum_zero; [reflexivity| |];
    intros x; rewrite gold_hit_never; reflexivity.
Qed.

(** X6. Gold is never collected. The mask [collision_gold] is never set,
    so the reward that [update_entities] returns is 0 for every state, and
    the reward of a step is 0 for every draw, parameter set, state and
    action. On the sample state the gold row of slot 1 lies on the player's
    cell (5, 3): [update_entities] returns it active and one column
    further, with reward 0. *)
Theorem gold_never_collected :
  (forall s : state, (update_entities s).1.2 = 0)
  /\ (forall (r : rng) (p : params) (s : state) (action : Z),
         out_reward (step r p s action) = 0)
  /\ (let s := set_entities contact_state
                 (<[1%nat := Entity 5 3 1 1 1]> (entities contact_state)) in
      player_x s = 5 /\ player_y s = 3
      /\ row (entities s) 1 = Entity 5 3 1 1 1
      /\ row (entities (update_entities s).1.1) 1 = Entity 6 3 1 1 1
      /\ (update_entities s).1.2 = 0).
Proof.
  split; [exact update_entities_no_reward|].
  split; [intros r p s action; rewrite step_reward;
          apply update_entities_no_reward|].
  repeat split; vm_compute; reflexivity.
Qed.

(** ** Counters *)

Lemma before_ramp_spawn_timer (r : rng) (s : state) (action : Z) :
  spawn_timer (before_ramp r s action) = spawn_timer (spawn_phase r s) - 1.
Proof.
  unfold before_ramp.
  destruct (update_entities_spec (player_phase (spawn_phase r s) action))
    as (Hst & _ & _).
  rewrite Hst.
  generalize (entities
                (update_entities
                   (player_phase (spawn_phase r s) action)).1.1).
  generalize (spawn_phase r s). intros s0 t. reflexivity.
Qed.

Lemma ramp_phase_timers (p : params) (s : state) :
  move_timer (ramp_phase p s) = move_timer s
  /\ spawn_timer (ramp_phase p s) = spawn_timer s
  /\ shot_timer (ramp_phase p s) = shot_timer s.
Proof. repeat split. Qed.

(** X8. After a step [move_timer] is the old [move_speed] minus 1,
    whatever it was before; [spawn_timer] is [spawn_speed - 1] if it was 0,
    one less than before if it was positive, and -1 if it was negative;
    [shot_timer] is never changed. *)
Theorem timers_after_step (r : rng) (p : params) (s : state) (action : Z) :
  move_timer (out_state (step r p s action)) = move_speed s - 1
  /\ spawn_timer (out_state (step r p s action))
     = (if spawn_timer s =? 0 then spawn_speed s
        else if 0 <? spawn_timer s then spawn_timer s else 0) - 1
  /\ shot_timer (out_state (step r p s action)) = shot_timer s.
Proof.
  rewrite step_state.
  destruct (ramp_phase_timers p (before_ramp r s action)) as (-> & -> & ->).
  destruct (before_ramp_scalars r s action)
    as (_ & _ & _ & _ & _ & _ & Hshot & Hmove).
  rewrite before_ramp_spawn_timer, spawn_phase_spawn_timer, Z.gtb_ltb.
  split; [exact Hmove|]. split; [|exact Hshot].
  destruct (Z.eqb_spec (spawn_timer s) 0), (Z.ltb_spec 0 (spawn_timer s));
    cbn [Z.b2z]; lia.
Qed.

Lemma ramp_phase_idle (p : params) (s : state) :
  ramping p = 0 \/ (spawn_speed s <= 1 /\ move_speed s <= 1) ->
  ramp_timer (ramp_phase p s) = ramp_interval p
  /\ move_speed (ramp_phase p s) = move_speed s
  /\ spawn_speed (ramp_phase p s) = spawn_speed s
  /\ ramp_index (ramp_phase p s) = ramp_index s.
Proof.
  intros Hidle. unfold ramp_phase.
  cbn [ramp_timer move_speed spawn_speed ramp_index set_ramp_timer
       set_move_speed set_spawn_speed set_ramp_index].
  rewrite !Z.gtb_ltb.
  assert (Hc : negb (ramping p =? 0)
               && ((1 <? spawn_speed s) || (1 <? move_speed s)) = false).
  { destruct Hidle as [-> | [H1 H2]]; [reflexivity|].
    destruct (Z.ltb_spec 1 (spawn_speed s)); [lia|].
    destruct (Z.ltb_spec 1 (move_speed s)); [lia|].
    apply andb_false_r. }
  rewrite Hc. cbn [andb Z.b2z]. repeat split; lia.
Qed.

(** X9. While ramping is switched off, or once both speeds are down to 1
    or less, a step only reloads [ramp_timer] with the configured interval:
    the two speeds and [ramp_index] stay as they are. *)
Theorem ramp_idle (r : rng) (p : params) (s : state) (action : Z) :
  ramping p = 0 \/ (spawn_speed s <= 1 /\ move_speed s <= 1) ->
  ramp_timer (out_state (step r p s action)) = ramp_interval p
  /\ move_speed (out_state (step r p s action)) = move_speed s
  /\ spawn_speed (out_state (step r p s action)) = spawn_speed s
  /\ ramp_index (out_state (step r p s action)) = ramp_index s.
Proof.
  intros Hidle. rewrite step_state.
  destruct (before_ramp_scalars r s action)
    as (_ & _ & Hss & Hmv & Hrt & Hri & _).
  pose proof (ramp_phase_idle p (before_ramp r s action)) as H.
  rewrite Hss, Hmv, Hri in H. exact (H Hidle).
Qed.

Lemma ramp_idle_witness :
  ramp_timer (out_state (step sample_rng (Params 0 100 10 5 5)
                              (initial_state (Params 0 100 10 5 5)) 1)) = 100
  /\ move_speed (out_state (step sample_rng (Params 0 100 10 5 5)
                                 (initial_state (Params 0 100 10 5 5)) 1)) = 5
  /\ spawn_speed (out_state (step sample_rng (Params 0 100 10 5 5)
                                  (initial_state (Params 0 100 10 5 5)) 1))
     = 10
  /\ ramp_index (out_state (step sample_rng (Params 0 100 10 5 5)
                                 (initial_state (Params 0 100 10 5 5)) 1)) = 0.
Proof.
  apply (ramp_idle sample_rng (Params 0 100 10 5 5)
           (initial_state (Params 0 100 10 5 5)) 1).
  left. reflexivity.
Defined.

(** What the ramp can do to the speeds and its own counters. *)
Lemma ramp_phase_bounds (p : params) (s : state) :
  spawn_speed s - 1 <= spawn_speed (ramp_phase p s) <= spawn_speed s
  /\ (1 <= spawn_speed s -> 1 <= spawn_speed (ramp_phase p s))
  /\ move_speed s - 1 <= move_speed (ramp_phase p s) <= move_speed s
  /\ (0 <= move_speed s -> 0 <= move_speed (ramp_phase p s))
  /\ ramp_index s <= ramp_index (ramp_phase p s) <= ramp_index s + 1
  /\ (ramp_timer (ramp_phase p s) = ramp_interval p
      \/ (0 <= ramp_timer s
          /\ ramp_timer (ramp_phase p s) = ramp_timer s - 1)).
Proof.
  unfold ramp_phase.
  cbn [ramp_timer move_speed spawn_speed ramp_index set_ramp_timer
       set_move_speed set_spawn_speed set_ramp_index].
  rewrite !Z.gtb_ltb, Z.geb_leb.
  destruct (negb (ramping p =? 0)
            && ((1 <? spawn_speed s) || (1 <? move_speed s)));
    destruct (Z.leb_spec 0 (ramp_timer s));
    cbn [andb Z.b2z];
    try change (1 - 1 =? 0) with true; try change (1 - 0 =? 0) with false;
    cbn [negb andb Z.b2z];
    destruct (Z.eqb_spec (move_speed s) 0);
    destruct (negb (ramp_index s mod 2 =? 0));
    destruct (Z.ltb_spec 1 (spawn_speed s));
    cbn [negb andb Z.b2z]; repeat split; lia.
Qed.

(** The ranges the counters of a game stay in. *)
Lemma step_keeps_counters (r : rng) (p : params) (s : state) (action : Z) :
  0 <= ramp_interval p ->
  (1 <= spawn_speed s <= init_spawn_speed p
   /\ 0 <= move_speed s <= init_move_interval p
   /\ 0 <= spawn_timer s <= init_spawn_speed p
   /\ -1 <= move_timer s <= init_move_interval p
   /\ -1 <= ramp_timer s <= ramp_interval p
   /\ 0 <= ramp_index s) ->
  1 <= spawn_speed (out_state (step r p s action)) <= init_spawn_speed p
  /\ 0 <= move_speed (out_state (step r p s action)) <= init_move_interval p
  /\ 0 <= spawn_timer (out_state (step r p s action)) <= init_spawn_speed p
  /\ -1 <= move_timer (out_state (step r p s action)) <= init_move_interval p
  /\ -1 <= ramp_timer (out_state (step r p s action)) <= ramp_interval p
  /\ 0 <= ramp_index (out_state (step r p s action)).
Proof.
  intros Hint (Hss & Hms & Hst & Hmt & Hrt & Hri).
  rewrite step_state.
  destruct (ramp_phase_timers p (before_ramp r s action)) as (-> & -> & _).
  destruct (before_ramp_scalars r s action)
    as (_ & _ & Ess & Emv & Ert & Eri & _ & Emt).
  pose proof (ramp_phase_bounds p (before_ramp r s action)) as H.
  rewrite Ess, Emv, Ert, Eri in H.
  rewrite before_ramp_spawn_timer, spawn_phase_spawn_timer, Z.gtb_ltb, Emt.
  destruct (Z.eqb_spec (spawn_timer s) 0), (Z.ltb_spec 0 (spawn_timer s));
    cbn [Z.b2z]; lia.
Qed.

(** X10. In a game started by [reset] with an initial spawn speed of at
    least 1, a non-negative initial move interval and a non-negative ramp
    interval, every reachable state has [spawn_speed] between 1 and its
    initial value, [move_speed] between 0 and its initial value,
    [spawn_timer] between 0 and the initial spawn speed (so it is never
    negative), [move_timer] and [ramp_timer] at least -1 and at most their
    initial values, and a non-negative [ramp_index]. *)
Theorem counters_bounded (p : params) (s : state) :
  1 <= init_spawn_speed p ->
  0 <= init_move_interval p ->
  0 <= ramp_interval p ->
  reachable p s ->
  1 <= spawn_speed s <= init_spawn_speed p
  /\ 0 <= move_speed s <= init_move_interval p
  /\ 0 <= spawn_timer s <= init_spawn_speed p
  /\ -1 <= move_timer s <= init_move_interval p
  /\ -1 <= ramp_timer s <= ramp_interval p
  /\ 0 <= ramp_index s.
Proof.
  intros Hss Hmi Hri Hreach.
  induction Hreach as [r|r s action _ IH].
  - cbn. lia.
  - apply step_keeps_counters; assumption.
Qed.

Lemma counters_bounded_witness :
  1 <= spawn_speed (out_state (step sample_rng params_asterix
                                    (reset sample_rng params_asterix).2 2))
    <= 10
  /\ 0 <= move_speed (out_state (step sample_rng params_asterix
                                      (reset sample_rng params_asterix).2 2))
       <= 5
  /\ 0 <= spawn_timer (out_state (step sample_rng params_asterix
                                       (reset sample_rng params_asterix).2 2))
       <= 10
  /\ -1 <= move_timer (out_state (step sample_rng params_asterix
                                       (reset sample_rng params_asterix).2 2))
        <= 5
  /\ -1 <= ramp_timer (out_state (step sample_rng params_asterix
                                       (reset sample_rng params_asterix).2 2))
        <= 100
  /\ 0 <= ramp_index (out_state (step sample_rng params_asterix
                                      (reset sample_rng params_asterix).2 2)).
Proof.
  apply (counters_bounded params_asterix).
  - simpl. lia.
  - simpl. lia.
  - simpl. lia.
  - apply reachable_step, reachable_reset.
Defined.

(** ** The table of a running game *)

Lemma while_loop_flag (occ : list Z) (val : Z * Z) :
  val.2 = 0 \/ val.2 = 1 ->
  (while_loop occ val).2 = 0 \/ (while_loop occ val).2 = 1.
Proof.
  funelim (while_loop occ val); intros Hv.
  - apply H. unfold update. cbn [fst snd].
    destruct (_ =? 0); [right|left]; reflexivity.
  - exact Hv.
Qed.

Lemma while_sample_slots_flag (r : rng) (occ : list Z) :
  (while_sample_slots r occ).2 = 0 \/ (while_sample_slots r occ).2 = 1.
Proof.
  unfold while_sample_slots. apply while_loop_flag. left. reflexivity.
Qed.

Lemma length_from_lookup (l l' : list entity) :
  (forall j : nat, is_Some (l !! j) <-> is_Some (l' !! j)) ->
  length l = length l'.
Proof.
  intros H.
  destruct (Nat.lt_trichotomy (length l) (length l')) as [Hlt|[Heq|Hgt]].
  - exfalso. apply lookup_lt_is_Some_2, H, lookup_lt_is_Some_1 in Hlt. lia.
  - exact Heq.
  - exfalso. apply lookup_lt_is_Some_2, H, lookup_lt_is_Some_1 in Hgt. lia.
Qed.

Lemma slots_ok_initial : slots_ok (replicate 8 zero_entity).
Proof.
  split; [reflexivity|].
  intros k x Hk. apply lookup_replicate in Hk as [-> _]. left. reflexivity.
Qed.

Lemma spawn_phase_slots_ok (r : rng) (s : state) :
  slots_ok (entities s) -> slots_ok (entities (spawn_phase r s)).
Proof.
  intros [Hlen Hrows].
  destruct (Z.lt_trichotomy (spawn_timer s) 0) as [Hneg|[H0|Hpos]].
  - destruct (spawn_phase_negative r s Hneg) as [-> _]. rewrite Hlen.
    apply slots_ok_initial.
  - destruct (spawn_phase_due r s H0) as [-> _].
    destruct (spawn_entity_slot r s) as [-> ->].
    pose proof (while_sample_slots_range r (e_filled <$> entities s)) as Hr.
    pose proof (while_sample_slots_flag r (e_filled <$> entities s)) as Hf.
    destruct (while_sample_slots r (e_filled <$> entities s)) as [slot free].
    cbn [fst snd] in *.
    rewrite index_update_row_in_range by lia.
    split; [rewrite length_insert; exact Hlen|].
    intros k x Hk. apply list_lookup_insert_Some in Hk
      as [(<- & <- & _)|(_ & Hk)]; [|exact (Hrows k x Hk)].
    cbn [e_filled e_y]. lia.
  - destruct (spawn_phase_waiting r s) as [-> _]; [lia|]. split; assumption.
Qed.

Lemma entity_step_slot (px py c : Z) (x : entity) :
  e_filled x = 0 \/ (e_filled x = 1 /\ e_y x = c) ->
  e_filled (entity_step px py x) = 0
  \/ (e_filled (entity_step px py x) = 1 /\ e_y (entity_step px py x) = c).
Proof.
  intros H. rewrite entity_step_advance.
  change (e_filled (advance x)) with (e_filled x).
  change (e_y (advance x)) with (e_y x). exact H.
Qed.

Lemma step_slots_ok (r : rng) (p : params) (s : state) (action : Z) :
  slots_ok (entities s) ->
  slots_ok (entities (out_state (step r p s action))).
Proof.
  intros Hs. apply (spawn_phase_slots_ok r) in Hs. destruct Hs as [Hlen Hrows].
  split.
  - rewrite <- Hlen. apply length_from_lookup. intros j.
    rewrite step_entities.
    destruct (decide (j < 8)%nat); [|reflexivity].
    rewrite fmap_is_Some. reflexivity.
  - intros k x Hk. rewrite step_entities in Hk.
    destruct (decide (k < 8)%nat).
    + apply fmap_Some in Hk as (x0 & Hx0 & ->).
      apply entity_step_slot. exact (Hrows k x0 Hx0).
    + exact (Hrows k x Hk).
Qed.

Lemma rows_distinct_offset (l : list entity) :
  forall off : nat,
    (forall (k : nat) (x : entity),
        l !! k = Some x ->
        e_filled x = 0 \/ (e_filled x = 1 /\ e_y x = Z.of_nat (off + k) + 1)) ->
    rows_distinct l.
Proof.
  induction l as [|x l IH]; intros off H; [exact I|].
  cbn [rows_distinct]. split.
  - apply Forall_lookup_2. intros k y Hy.
    destruct (H 0%nat x eq_refl) as [Hx|[_ Hx]]; [left; exact Hx|].
    destruct (H (S k) y Hy) as [Hy0|[_ Hy1]]; [right; left; exact Hy0|].
    right. right. lia.
  - apply (IH (S off)). intros k y Hy.
    replace (S off + k)%nat with (off + S k)%nat by lia.
    apply (H (S k) y Hy).
Qed.

(** X11. In every state reachable from a reset the table has eight rows,
    an active row in slot [k] has the filled flag 1 and lies on grid row
    [k + 1], and so no two active entities share a row. *)
Theorem reachable_table (p : params) (s : state) :
  reachable p s ->
  length (entities s) = 8%nat
  /\ (forall (k : nat) (x : entity),
         entities s !! k = Some x -> e_filled x <> 0 ->
         e_filled x = 1 /\ e_y x = Z.of_nat k + 1)
  /\ rows_distinct (entities s).
Proof.
  intros Hreach.
  assert (Hs : slots_ok (entities s)).
  { induction Hreach as [r|r s action _ IH].
    - apply slots_ok_initial.
    - apply step_slots_ok. exact IH. }
  destruct Hs as [Hlen Hrows]. split; [exact Hlen|]. split.
  - intros k x Hk Hf. destruct (Hrows k x Hk) as [H0|H1]; [contradiction|].
    exact H1.
  - apply (rows_distinct_offset _ 0). exact Hrows.
Qed.

Lemma reachable_table_witness :
  length (entities (out_state (step sample_rng params_asterix
                                    (reset sample_rng params_asterix).2 2)))
  = 8%nat
  /\ (forall (k : nat) (x : entity),
         entities (out_state (step sample_rng params_asterix
                                   (reset sample_rng params_asterix).2 2))
         !! k = Some x ->
         e_filled x <> 0 -> e_filled x = 1 /\ e_y x = Z.of_nat k + 1)
  /\ rows_distinct
       (entities (out_state (step sample_rng params_asterix
                                  (reset sample_rng params_asterix).2 2))).
Proof.
  apply (reachable_table params_asterix).
  apply reachable_step, reachable_reset.
Defined.

(** ** The observation of any state *)

Lemma shape3_zeros (d0 d1 d2 : nat) : shape3 d0 d1 d2 (zeros3 d0 d1 d2).
Proof.
  unfold shape3, zeros3. split; [apply length_replicate|].
  apply Forall_replicate. split; [apply length_replicate|].
  apply Forall_replicate. apply length_replicate.
Qed.

Lemma shape3_index_update3 (d0 d1 d2 : nat) (a : list (list (list bool)))
      (i j k : Z) (v : bool) :
  shape3 d0 d1 d2 a -> shape3 d0 d1 d2 (index_update3 a i j k v).
Proof.
  intros [Hlen Hall]. unfold index_update3.
  destruct (norm_index 10 i) as [i'|]; [|split; assumption].
  destruct (norm_index 10 j) as [j'|]; [|split; assumption].
  destruct (norm_index 5 k) as [k'|]; [|split; assumption].
  unfold set3. split; [rewrite length_alter; exact Hlen|].
  apply Forall_alter; [exact Hall|].
  intros plane _ [Hp Hcells]. split; [rewrite length_alter; exact Hp|].
  apply Forall_alter; [exact Hcells|].
  intros cell _ Hc. rewrite length_insert. exact Hc.
Qed.

Lemma shape3_render_entity (d0 d1 d2 : nat) (a : list (list (list bool)))
      (x : entity) :
  shape3 d0 d1 d2 a -> shape3 d0 d1 d2 (render_entity a x).
Proof.
  intros Ha. unfold render_entity. cbv zeta.
  apply shape3_index_update3, shape3_index_update3, Ha.
Qed.

Lemma shape3_fold_render (d0 d1 d2 : nat) (l : list entity) :
  forall a : list (list (list bool)),
    shape3 d0 d1 d2 a -> shape3 d0 d1 d2 (fold_left render_entity l a).
Proof.
  induction l as [|x l IH]; intros a Ha; [exact Ha|].
  cbn [fold_left]. apply IH, shape3_render_entity, Ha.
Qed.

Lemma shape3_visible (d0 d1 : nat) (a : list (list (list bool))) :
  shape3 d0 d1 5 a -> shape3 d0 d1 4 (visible a).
Proof.
  intros [Hlen Hall]. unfold visible.
  split; [rewrite length_fmap; exact Hlen|].
  apply Forall_fmap. eapply Forall_impl; [exact Hall|].
  intros plane [Hp Hcells]. unfold compose.
  split; [rewrite length_fmap; exact Hp|].
  apply Forall_fmap. eapply Forall_impl; [exact Hcells|].
  intros cell Hc. unfold compose. rewrite length_take, Hc. reflexivity.
Qed.

(** X12. The observation of any state, whatever its table and whatever the
    coordinates in it, has ten rows of ten cells of four channels. *)
Theorem observation_shape (s : state) : shape3 10 10 4 (get_obs s).
Proof.
  unfold get_obs. cbv zeta.
  apply shape3_visible, shape3_fold_render, shape3_index_update3,
    shape3_zeros.
Qed.

Lemma target_other_channel (i j k : Z) (r c ch : nat) :
  0 <= k <= 4 -> k <> Z.of_nat ch -> target i j k r c ch = false.
Proof.
  intros Hk Hne. destruct (target i j k r c ch) eqn:E; [|reflexivity].
  apply target_channel in E. rewrite norm_index_in_range in E by lia.
  injection E as E. lia.
Qed.

Lemma render_keeps_player_channel (obs : list (list (list bool)))
      (x : entity) (r c : nat) :
  flags_ok x ->
  get3 (render_entity obs x) r c 0 = get3 obs r c 0.
Proof.
  intros [Hf Hg]. unfold render_entity. cbv zeta.
  rewrite !get3_index_update3_any.
  destruct Hf as [-> | ->], Hg as [-> | ->];
    rewrite !target_other_channel by (cbn; lia); reflexivity.
Qed.

Lemma fold_render_player_channel (l : list entity) (r c : nat) :
  Forall flags_ok l ->
  forall obs : list (list (list bool)),
    get3 (fold_left render_entity l obs) r c 0 = get3 obs r c 0.
Proof.
  induction 1 as [|x l Hx Hl IH]; intros obs; [reflexivity|].
  cbn [fold_left]. rewrite IH. apply render_keeps_player_channel, Hx.
Qed.

Lemma player_channel_cells (s : state) (r c : nat) :
  0 <= player_x s <= 9 -> 0 <= player_y s <= 9 ->
  Forall flags_ok (entities s) ->
  get3 (get_obs s) r c 0
  = (player_y s =? Z.of_nat r) && (player_x s =? Z.of_nat c).
Proof.
  intros Hx Hy Hflags. unfold get_obs. cbv zeta.
  rewrite get3_visible, decide_True by lia.
  rewrite fold_render_player_channel by exact Hflags.
  rewrite get3_player by assumption.
  unfold player_sets. apply andb_true_r.
Qed.

(** X13. When the player is on the grid and the filled and gold flags of
    the table are bits, channel 0 of the observation shows the player and
    nothing else: a cell of channel 0 is true exactly at the player's row
    and column, wherever the entities are. *)
Theorem player_channel (s : state) (r c : nat) :
  0 <= player_x s <= 9 -> 0 <= player_y s <= 9 ->
  Forall flags_ok (entities s) ->
  get3 (get_obs s) r c 0
  = (player_y s =? Z.of_nat r) && (player_x s =? Z.of_nat c).
Proof. apply player_channel_cells. Qed.

Lemma player_channel_witness :
  get3 (get_obs move_tick_state) 6 5 0 = true
  /\ get3 (get_obs move_tick_state) 4 9 0 = false.
Proof.
  assert (Hx : 0 <= player_x move_tick_state <= 9) by (simpl; lia).
  assert (Hy : 0 <= player_y move_tick_state <= 9) by (simpl; lia).
  assert (Hf : Forall flags_ok (entities move_tick_state)).
  { unfold move_tick_state, off_tick_state, enemy_at.
    cbn [entities set_move_timer].
    repeat (apply Forall_cons; split); try apply Forall_nil;
      unfold flags_ok; cbn [e_filled e_gold zero_entity]; lia. }
  split.
  - rewrite (player_channel move_tick_state 6 5 Hx Hy Hf). reflexivity.
  - rewrite (player_channel move_tick_state 4 9 Hx Hy Hf). reflexivity.
Defined.

(** ** Cells with several writers *)

(** X17. The writes that set a cell add up. In a state of the data model
    (flags are bits, the player and the active entities are on the grid), a
    cell of the four visible channels that no active entity cancels (the
    one cancelling write is that of an entity whose trailing column is -1,
    at column 9 of its row in the trail channel) is true exactly when some
    writer sets it, however many do: the player its own cell of channel 0,
    an active entity its cell of channel 1 or 3 and, when the trailing
    column is within [0,9], the trail cell of channel 2. Whatever the
    state, rendering an inactive entity changes no cell of the four
    visible channels. *)
Theorem observation_or (s : state) (r c ch : nat) :
  in_grid s ->
  (ch < 4)%nat ->
  uncancelled s r c ch = true ->
  get3 (get_obs s) r c ch = some_writer_sets s r c ch
  /\ (forall (obs : list (list (list bool))) (x : entity) (r' c' : nat),
         e_filled x = 0 ->
         get3 (render_entity obs x) r' c' ch = get3 obs r' c' ch).
Proof.
  intros (Hpx & Hpy & Hok) Hch Hunc. split.
  - unfold get_obs. cbv zeta.
    rewrite get3_visible, decide_True by exact Hch.
    rewrite fold_render_or; try assumption.
    + rewrite get3_player by assumption. reflexivity.
    + apply full_shape_index_update3, full_shape_zeros.
  - intros obs x r' c' Hf. apply render_inactive; assumption.
Qed.

Lemma observation_or_witness :
  entity_sets (row (entities double_trail_state) 1) 2 3 2 = true
  /\ entity_sets (row (entities double_trail_state) 2) 2 3 2 = true
  /\ get3 (get_obs double_trail_state) 2 3 2 = true.
Proof.
  assert (Hs : in_grid double_trail_state).
  { unfold in_grid, double_trail_state, shared_row_state.
    cbn [player_x player_y entities set_entities].
    split; [lia|]. split; [lia|].
    repeat (apply Forall_cons; split); try apply Forall_nil;
      unfold entity_ok; cbn [e_filled e_lr e_gold e_x e_y zero_entity]; lia. }
  assert (Hch : (2 < 4)%nat) by lia.
  assert (Hunc : uncancelled double_trail_state 2 3 2 = true)
    by reflexivity.
  destruct (observation_or double_trail_state 2 3 2 Hs Hch Hunc) as [Hcell _].
  split; [reflexivity|]. split; [reflexivity|].
  rewrite Hcell. reflexivity.
Defined.

(** ** The player channel along a game *)

Lemma flags_ok_zero : flags_ok zero_entity.
Proof. split; left; reflexivity. Qed.

Lemma spawn_phase_flags_ok (r : rng) (s : state) :
  draw_gold r = 0 \/ draw_gold r = 1 ->
  Forall flags_ok (entities s) ->
  Forall flags_ok (entities (spawn_phase r s)).
Proof.
  intros Hg Hall.
  destruct (Z.lt_trichotomy (spawn_timer s) 0) as [Hneg|[H0|Hpos]].
  - destruct (spawn_phase_negative r s Hneg) as [-> _].
    apply Forall_replicate, flags_ok_zero.
  - destruct (spawn_phase_due r s H0) as [-> _].
    destruct (spawn_entity_slot r s) as [_ ->].
    unfold index_update_row. destruct (norm_index _ _); [|exact Hall].
    apply Forall_insert; [exact Hall|].
    split; cbn [e_filled e_gold];
      [apply while_sample_slots_flag|exact Hg].
  - destruct (spawn_phase_waiting r s) as [-> _]; [lia|]. exact Hall.
Qed.

Lemma entity_step_flags_ok (px py : Z) (x : entity) :
  flags_ok x -> flags_ok (entity_step px py x).
Proof.
  intros H. rewrite entity_step_advance. exact H.
Qed.

Lemma step_flags_ok (r : rng) (p : params) (s : state) (action : Z) :
  draw_gold r = 0 \/ draw_gold r = 1 ->
  Forall flags_ok (entities s) ->
  Forall flags_ok (entities (out_state (step r p s action))).
Proof.
  intros Hg Hall. apply (spawn_phase_flags_ok r s Hg) in Hall.
  apply Forall_lookup_2. intros j x Hj. rewrite step_entities in Hj.
  destruct (decide (j < 8)%nat).
  - apply fmap_Some in Hj as (x0 & Hx0 & ->).
    apply entity_step_flags_ok. exact (Forall_lookup_1 _ _ _ _ Hall Hx0).
  - exact (Forall_lookup_1 _ _ _ _ Hall Hj).
Qed.

Lemma run_keeps_player_and_flags (p : params) (inputs : list (rng * Z)) :
  forall s : state,
    bit_draws inputs ->
    0 <= player_x s <= 9 -> 1 <= player_y s <= 8 ->
    Forall flags_ok (entities s) ->
    0 <= player_x (run p s inputs) <= 9
    /\ 1 <= player_y (run p s inputs) <= 8
    /\ Forall flags_ok (entities (run p s inputs)).
Proof.
  induction inputs as [|[r action] rest IH]; intros s Hd Hx Hy Hf.
  - cbn [run]. split; [exact Hx|split; [exact Hy|exact Hf]].
  - cbn [run]. apply Forall_cons in Hd as [Hg Hd]. cbn [fst] in Hg.
    destruct (step_player r p s action) as [Ex Ey].
    destruct (player_phase_bounds s action Hx Hy) as [Bx By].
    apply IH; [exact Hd|rewrite Ex; exact Bx|rewrite Ey; exact By|].
    apply step_flags_ok; assumption.
Qed.

(** X14. Throughout a game started by [reset] and played with gold draws
    that are bits, channel 0 of the observation of the current state shows
    the player and nothing else: exactly one cell of it is true, the one
    at the player's row and column. *)
Theorem player_always_visible (p : params) (inputs : list (rng * Z))
        (r c : nat) :
  bit_draws inputs ->
  get3 (get_obs (run p (initial_state p) inputs)) r c 0
  = (player_y (run p (initial_state p) inputs) =? Z.of_nat r)
    && (player_x (run p (initial_state p) inputs) =? Z.of_nat c).
Proof.
  intros Hd.
  destruct (run_keeps_player_and_flags p inputs (initial_state p) Hd)
    as (Hx & Hy & Hf).
  - cbn. lia.
  - cbn. lia.
  - cbn [entities initial_state]. apply Forall_replicate, flags_ok_zero.
  - apply player_channel_cells; [exact Hx|lia|exact Hf].
Qed.

Lemma player_always_visible_witness :
  get3 (get_obs (run params_asterix (initial_state params_asterix)
                     [(sample_rng, 2); (sample_rng, 3)])) 6 6 0
  = (player_y (run params_asterix (initial_state params_asterix)
                   [(sample_rng, 2); (sample_rng, 3)]) =? Z.of_nat 6)
    && (player_x (run params_asterix (initial_state params_asterix)
                      [(sample_rng, 2); (sample_rng, 3)]) =? Z.of_nat 6).
Proof.
  apply (player_always_visible params_asterix
           [(sample_rng, 2); (sample_rng, 3)] 6 6).
  unfold bit_draws.
  constructor; [left; reflexivity|].
  constructor; [left; reflexivity|]. constructor.
Defined.

(** ** Rows do not interact *)

Lemma advance_inactive (x : entity) : e_filled x = 0 -> advance x = x.
Proof.
  intros Hf. destruct x as [x0 y0 lr g f]. cbn [e_filled] in Hf. subst f.
  unfold advance. cbn [e_x e_y e_lr e_gold e_filled].
  change (negb (0 =? 0)) with false. cbn [Z.b2z]. f_equal. lia.
Qed.

Lemma advance_active (x : entity) :
  e_filled x <> 0 ->
  advance x
  = Entity (e_x x + e_lr x - (1 - e_lr x)) (e_y x) (e_lr x) (e_gold x)
           (e_filled x).
Proof.
  intros Hf. unfold advance.
  destruct (Z.eqb_spec (e_filled x) 0) as [E|_]; [contradiction|].
  cbn [negb Z.b2z]. f_equal. lia.
Qed.

(** X15. [update_entities] works row by row and without regard to the
    player: each of the rows 0..7 of the returned table is the old row of
    that slot after the position update of the second loop, and rows
    beyond 7 are returned as they are. An active row among 0..7 comes back
    with its column changed by [lr - (1 - lr)] (one to the right for
    [lr = 1], one to the left for [lr = 0]) and its other four fields
    kept, also when the new column is outside [0,9]; an inactive row comes
    back unchanged. The table keeps its length, and of the rest of the
    state only [move_timer] changes, to [move_speed]. *)
Theorem update_entities_rowwise (s : state) :
  (forall j : nat,
      entities (update_entities s).1.1 !! j
      = if decide (j < 8)%nat
        then advance <$> entities s !! j
        else entities s !! j)
  /\ (forall (j : nat) (x : entity),
         (j < 8)%nat -> entities s !! j = Some x -> e_filled x <> 0 ->
         entities (update_entities s).1.1 !! j
         = Some (Entity (e_x x + e_lr x - (1 - e_lr x)) (e_y x) (e_lr x)
                        (e_gold x) (e_filled x)))
  /\ (forall (j : nat) (x : entity),
         entities s !! j = Some x -> e_filled x = 0 ->
         entities (update_entities s).1.1 !! j = Some x)
  /\ length (entities (update_entities s).1.1) = length (entities s)
  /\ (update_entities s).1.1
     = set_move_timer (set_entities s (entities (update_entities s).1.1))
                      (move_speed s).
Proof.
  destruct (update_entities_spec s) as (Hst & Hrows & _).
  assert (Hadv : forall j : nat,
             entities (update_entities s).1.1 !! j
             = if decide (j < 8)%nat
               then advance <$> entities s !! j
               else entities s !! j).
  { intros j. rewrite Hrows. destruct (decide (j < 8)%nat); [|reflexivity].
    destruct (entities s !! j) as [x|]; [|reflexivity].
    cbn. rewrite entity_step_advance. reflexivity. }
  split; [exact Hadv|]. split; [|split; [|split; [|exact Hst]]].
  - intros j x Hj Hx Hf. rewrite Hadv, Hx, decide_True by exact Hj.
    cbn. rewrite advance_active by exact Hf. reflexivity.
  - intros j x Hx Hf. rewrite Hadv, Hx.
    destruct (decide (j < 8)%nat); [|reflexivity].
    cbn. rewrite advance_inactive by exact Hf. reflexivity.
  - apply length_from_lookup. intros j. rewrite Hadv.
    destruct (decide (j < 8)%nat); [|reflexivity].
    rewrite fmap_is_Some. reflexivity.
Qed.

(** ** Moves that undo each other *)

Lemma player_phase_coords (s : state) (action : Z) :
  player_x (player_phase s action)
  = Z.max 0 (player_x s - 1) * Z.b2z (action =? 0)
    + Z.min 9 (player_x s + 1) * Z.b2z (action =? 2)
    + player_x s * Z.b2z (negb (action =? 0) && negb (action =? 2))
  /\ player_y (player_phase s action)
     = Z.max 1 (player_y s - 1) * Z.b2z (action =? 1)
       + Z.min 8 (player_y s + 1) * Z.b2z (action =? 3)
       + player_y s * Z.b2z (negb (action =? 1) && negb (action =? 3)).
Proof. split; reflexivity. Qed.

Lemma two_steps_player (r1 r2 : rng) (p : params) (s : state) (a1 a2 : Z) :
  player_x (out_state (step r2 p (out_state (step r1 p s a1)) a2))
  = player_x (player_phase (player_phase s a1) a2)
  /\ player_y (out_state (step r2 p (out_state (step r1 p s a1)) a2))
     = player_y (player_phase (player_phase s a1) a2).
Proof.
  destruct (step_player r2 p (out_state (step r1 p s a1)) a2) as [-> ->].
  destruct (step_player r1 p s a1) as [Hx Hy].
  destruct (player_phase_coords (out_state (step r1 p s a1)) a2) as [-> ->].
  destruct (player_phase_coords (player_phase s a1) a2) as [-> ->].
  rewrite Hx, Hy. split; reflexivity.
Qed.

(** X16. Away from the walls opposite moves undo each other over two
    steps: left then right restores [player_x] when it was at least 1,
    right then left when it was at most 8, up then down restores
    [player_y] when it was at least 2, down then up when it was at most 7
    (for a player on x in [0,9], y in [1,8]). *)
Theorem opposite_moves_undo (r1 r2 : rng) (p : params) (s : state) :
  0 <= player_x s <= 9 -> 1 <= player_y s <= 8 ->
  (1 <= player_x s ->
   player_x (out_state (step r2 p (out_state (step r1 p s 0)) 2))
   = player_x s)
  /\ (player_x s <= 8 ->
      player_x (out_state (step r2 p (out_state (step r1 p s 2)) 0))
      = player_x s)
  /\ (2 <= player_y s ->
      player_y (out_state (step r2 p (out_state (step r1 p s 1)) 3))
      = player_y s)
  /\ (player_y s <= 7 ->
      player_y (out_state (step r2 p (out_state (step r1 p s 3)) 1))
      = player_y s).
Proof.
  intros Hx Hy.
  repeat split; intros Hb;
    match goal with
    | |- context [step r2 p (out_state (step r1 p s ?a1)) ?a2] =>
        destruct (two_steps_player r1 r2 p s a1 a2) as [Ex Ey];
        destruct (player_phase_coords (player_phase s a1) a2) as [Fx Fy];
        destruct (player_phase_coords s a1) as [Gx Gy];
        rewrite ?Ex, ?Ey, ?Fx, ?Fy, ?Gx, ?Gy
    end;
    cbn [Z.eqb Pos.eqb Z.b2z negb andb]; lia.
Qed.

Lemma opposite_moves_undo_witness :
  player_x (out_state (step sample_rng params_asterix
                            (out_state (step sample_rng params_asterix
                                             (initial_state params_asterix)
                                             0)) 2)) = 5.
Proof.
  assert (Hx : 0 <= player_x (initial_state params_asterix) <= 9)
    by (simpl; lia).
  assert (Hy : 1 <= player_y (initial_state params_asterix) <= 8)
    by (simpl; lia).
  assert (Hb : 1 <= player_x (initial_state params_asterix))
    by (simpl; lia).
  exact (proj1 (opposite_moves_undo sample_rng sample_rng params_asterix
                  (initial_state params_asterix) Hx Hy) Hb).
Defined.
